(** * A shallow embedding of [mlops_task/run.py]

    The job reads a YAML configuration and a CSV time series, computes a
    rolling mean of the [close] column, derives a 0/1 signal, and writes one
    JSON report.  The embedding follows [main] statement by statement.

    Modelling conventions.
    - A Python [str] is a [string]; a character is a code point below 256.
    - A Python [float] is [NaN] or an exact rational: binary64 rounding and
      the infinities are idealised away.
    - The [try] body of [main] is a computation in a state-and-exception
      monad.  Its state is what outlives an exception: the local variable
      [config], the only one the [except] handler reads, and the reports
      written so far.
    - [yaml.safe_load], [pandas.read_csv] and [numpy.random.seed] are library
      calls on data the job does not control; their results are supplied by
      the [World] the job runs in.  The pandas operations on a column
      ([rolling], [mean], comparison, slicing) are modelled from their
      documented meaning.
    - The messages of the exceptions the interpreter and the libraries raise
      are worded as CPython 3.11 to 3.13 and pandas 2 word them; only the
      messages that [run.py] itself builds are used in the properties.
    - Logging is a side channel and is left out, and so is what happens
      before the [try]: argument parsing and the setup of the log file. *)

From Stdlib Require Import List String Ascii Bool Arith ZArith QArith Lia.
From Stdlib Require Import DecimalString.
Import ListNotations.

Local Close Scope Q_scope.
Local Open Scope list_scope.
Local Open Scope string_scope.

(* ===================================================================== *)
(** ** Python strings *)
(* ===================================================================== *)

Module PyStr.

Definition dquote : ascii := "034"%char.
Definition newline : string := String "010"%char EmptyString.

(** [str.isspace] on the code points below 256: TAB..CR, FS..US, SPACE,
    NEL and NBSP. *)
Definition is_space (c : ascii) : bool :=
  let n := nat_of_ascii c in
  ((9 <=? n)%nat && (n <=? 13)%nat) || ((28 <=? n)%nat && (n <=? 32)%nat)
  || (n =? 133)%nat || (n =? 160)%nat.

Definition is_dquote (c : ascii) : bool := Ascii.eqb c dquote.

(** Membership of a character in the argument of [str.strip(chars)]. *)
Fixpoint char_in (c : ascii) (chars : string) : bool :=
  match chars with
  | EmptyString => false
  | String d rest => Ascii.eqb c d || char_in c rest
  end.

(** [str.lstrip]: drop the longest prefix of characters satisfying [p]. *)
Fixpoint lstrip (p : ascii -> bool) (s : string) : string :=
  match s with
  | EmptyString => EmptyString
  | String c rest => if p c then lstrip p rest else s
  end.

(** [str.rstrip]: drop the longest suffix of characters satisfying [p]. *)
Fixpoint rstrip (p : ascii -> bool) (s : string) : string :=
  match s with
  | EmptyString => EmptyString
  | String c rest =>
      match rstrip p rest with
      | EmptyString => if p c then EmptyString else String c EmptyString
      | kept => String c kept
      end
  end.

Definition strip_by (p : ascii -> bool) (s : string) : string :=
  rstrip p (lstrip p s).

(** [s.strip()] *)
Definition strip (s : string) : string := strip_by is_space s.

(** [s.strip(chars)] *)
Definition strip_chars (chars s : string) : string :=
  strip_by (fun c => char_in c chars) s.

(** Every character of [s] satisfies [p]. *)
Fixpoint all_chars (p : ascii -> bool) (s : string) : bool :=
  match s with
  | EmptyString => true
  | String c rest => p c && all_chars p rest
  end.

Definition first_char (s : string) : option ascii :=
  match s with
  | EmptyString => None
  | String c _ => Some c
  end.

Fixpoint last_char (s : string) : option ascii :=
  match s with
  | EmptyString => None
  | String c EmptyString => Some c
  | String _ rest => last_char rest
  end.

Definition holds_at (p : ascii -> bool) (o : option ascii) : bool :=
  match o with
  | None => false
  | Some c => p c
  end.

(** [a in b] for two strings: [a] occurs in [b] as a substring. *)
Fixpoint starts_with (a b : string) : bool :=
  match a, b with
  | EmptyString, _ => true
  | String _ _, EmptyString => false
  | String x a', String y b' => Ascii.eqb x y && starts_with a' b'
  end.

Fixpoint contains (a b : string) : bool :=
  starts_with a b
  || match b with
     | EmptyString => false
     | String _ b' => contains a b'
     end.

(** [''.join(parts)] *)
Definition join (parts : list string) : string :=
  fold_right String.append EmptyString parts.

(** [s] between two double quotes. *)
Definition quoted (s : string) : string :=
  String dquote (s ++ String dquote EmptyString).

End PyStr.

(* ===================================================================== *)
(** ** Input repair (run.py lines 66-68) *)
(* ===================================================================== *)

(** [line.strip().strip(q)], where [q] is the one-character string made of
    the double quote. *)
Definition repair_line (line : string) : string :=
  PyStr.strip_chars (String PyStr.dquote EmptyString) (PyStr.strip line).

(** [cleaned = ''.join(line.strip().strip(q) + '\n' for line in raw_f)] *)
Definition cleaned (raw_f : list string) : string :=
  PyStr.join (map (fun line => repair_line line ++ PyStr.newline) raw_f).

(** The repair as the specification words it: after the whitespace strip,
    remove one leading double quote if there is one, and one trailing double
    quote if there is one. *)
Module SpecRepair.

Definition drop_leading_quote (s : string) : string :=
  match s with
  | String c rest => if PyStr.is_dquote c then rest else s
  | EmptyString => EmptyString
  end.

Fixpoint drop_trailing_quote (s : string) : string :=
  match s with
  | EmptyString => EmptyString
  | String c EmptyString =>
      if PyStr.is_dquote c then EmptyString else s
  | String c rest => String c (drop_trailing_quote rest)
  end.

Definition repair_line (line : string) : string :=
  drop_trailing_quote (drop_leading_quote (PyStr.strip line)).

End SpecRepair.

(* ===================================================================== *)
(** ** Python values *)
(* ===================================================================== *)

(** A [float]: not-a-number or a finite value, held exactly. *)
Inductive float : Type :=
| NaN
| Fin (q : Q).

(** [a > b] on floats: false as soon as one side is not-a-number. *)
Definition float_gt (a b : float) : bool :=
  match a, b with
  | Fin x, Fin y => match (x ?= y)%Q with Gt => true | _ => false end
  | _, _ => false
  end.

(** Equality of floats up to the representation of the rational. *)
Definition float_eq (a b : float) : Prop :=
  match a, b with
  | NaN, NaN => True
  | Fin x, Fin y => (x == y)%Q
  | _, _ => False
  end.

(** What [yaml.safe_load] returns: the core schema and timestamps.  A dict
    is held as its items; only string keys are ever looked up by the job. *)
#[warning="-register-all"]
Inductive yaml : Type :=
| YNull
| YBool (b : bool)
| YInt (z : Z)
| YFloat (x : float)
| YStr (s : string)
| YDate (iso : string)
| YList (items : list yaml)
| YMap (entries : list (string * yaml)).

(** An exception: its class and [str(e)]. *)
Record exn : Type := Exn { exn_class : string; exn_msg : string }.

Definition FileNotFoundError := Exn "FileNotFoundError".
Definition ValueError := Exn "ValueError".
Definition TypeError := Exn "TypeError".
Definition AttributeError := Exn "AttributeError".
Definition KeyError := Exn "KeyError".
Definition DataError := Exn "DataError".

Definition type_name (v : yaml) : string :=
  match v with
  | YNull => "NoneType"
  | YBool _ => "bool"
  | YInt _ => "int"
  | YFloat _ => "float"
  | YStr _ => "str"
  | YDate _ => "datetime.date"
  | YList _ => "list"
  | YMap _ => "dict"
  end.

Fixpoint dict_lookup (key : string) (entries : list (string * yaml))
  : option yaml :=
  match entries with
  | [] => None
  | (k, v) :: rest => if String.eqb k key then Some v else dict_lookup key rest
  end.

Definition dict_has (key : string) (entries : list (string * yaml)) : bool :=
  match dict_lookup key entries with
  | Some _ => true
  | None => false
  end.

Definition is_str (key : string) (v : yaml) : bool :=
  match v with
  | YStr s => String.eqb s key
  | _ => false
  end.

(** [key in container] for a string [key]: key membership on a dict,
    element membership on a list, substring test on a string, [TypeError]
    on anything else. *)
Definition py_in (key : string) (container : yaml) : exn + bool :=
  match container with
  | YMap entries => inr (dict_has key entries)
  | YList items => inr (existsb (is_str key) items)
  | YStr s => inr (PyStr.contains key s)
  | other =>
      inl (TypeError ("argument of type '" ++ type_name other
                      ++ "' is not iterable"))
  end.

(** [container[key]] for a string [key]. *)
Definition py_getitem (container : yaml) (key : string) : exn + yaml :=
  match container with
  | YMap entries =>
      match dict_lookup key entries with
      | Some v => inr v
      | None => inl (KeyError ("'" ++ key ++ "'"))
      end
  | YStr _ => inl (TypeError "string indices must be integers, not 'str'")
  | YList _ =>
      inl (TypeError "list indices must be integers or slices, not str")
  | other =>
      inl (TypeError ("'" ++ type_name other
                      ++ "' object is not subscriptable"))
  end.

(** [container.get(key, default)]: only a dict has the method. *)
Definition py_get (container : yaml) (key : string) (default : yaml)
  : exn + yaml :=
  match container with
  | YMap entries =>
      match dict_lookup key entries with
      | Some v => inr v
      | None => inr default
      end
  | other =>
      inl (AttributeError ("'" ++ type_name other
                           ++ "' object has no attribute 'get'"))
  end.

(** What [json.dump] accepts among the loaded values: everything but a
    timestamp, at any depth. *)
Fixpoint json_ok (v : yaml) : bool :=
  match v with
  | YDate _ => false
  | YList items => forallb json_ok items
  | YMap entries => forallb (fun kv => json_ok (snd kv)) entries
  | _ => true
  end.

(* ===================================================================== *)
(** ** The pandas operations the job calls *)
(* ===================================================================== *)

Module Pandas.

(** A column: [float64], [int64], or anything that is not numeric. *)
Inductive Series : Type :=
| Float64 (values : list float)
| Int64 (values : list Z)
| Object (values : list string).

Definition series_len (s : Series) : nat :=
  match s with
  | Float64 v => List.length v
  | Int64 v => List.length v
  | Object v => List.length v
  end.

(** [len(df)] and the columns in order. *)
Record DataFrame : Type := {
  df_len : nat;
  df_columns : list (string * Series)
}.

(** Every column is as long as the index. *)
Definition well_formed (df : DataFrame) : bool :=
  forallb (fun c => (series_len (snd c) =? df_len df)%nat) (df_columns df).

(** [df.empty]: some axis has List.length zero. *)
Definition empty (df : DataFrame) : bool :=
  (df_len df =? 0)%nat
  || match df_columns df with [] => true | _ => false end.

(** [name in df.columns] *)
Definition has_column (name : string) (df : DataFrame) : bool :=
  existsb (fun c => String.eqb (fst c) name) (df_columns df).

(** [df[name]] *)
Fixpoint column (name : string) (cols : list (string * Series))
  : option Series :=
  match cols with
  | [] => None
  | (n, s) :: rest => if String.eqb n name then Some s else column name rest
  end.

(** [df[name] = s]: replace the column in place, or append it. *)
Fixpoint set_column (name : string) (s : Series)
    (cols : list (string * Series)) : list (string * Series) :=
  match cols with
  | [] => [(name, s)]
  | (n, old) :: rest =>
      if String.eqb n name then (n, s) :: rest
      else (n, old) :: set_column name s rest
  end.

Definition assign (name : string) (s : Series) (df : DataFrame)
  : DataFrame :=
  {| df_len := df_len df; df_columns := set_column name s (df_columns df) |}.

(** The values of a numeric column as floats; an [int64] value converts
    exactly. *)
Definition to_float64 (s : Series) : option (list float) :=
  match s with
  | Float64 v => Some v
  | Int64 v => Some (map (fun z => Fin (inject_Z z)) v)
  | Object _ => None
  end.

(** [l[start:stop]] for non-negative bounds. *)
Definition slice {A : Type} (start stop : nat) (l : list A) : list A :=
  firstn (stop - start) (skipn start l).

(** [l[start:]]: a negative [start] counts from the end. *)
Definition slice_from {A : Type} (start : Z) (l : list A) : list A :=
  if (0 <=? start)%Z then skipn (Z.to_nat start) l
  else skipn (List.length l - Z.to_nat (- start)) l.

(** The observations of a window: the values that are not NaN. *)
Fixpoint observations (l : list float) : list Q :=
  match l with
  | [] => []
  | NaN :: rest => observations rest
  | Fin q :: rest => q :: observations rest
  end.

Definition Qsum (l : list Q) : Q := fold_right Qplus 0%Q l.

Definition Qmean (l : list Q) : Q :=
  (Qsum l / inject_Z (Z.of_nat (List.length l)))%Q.

(** The value of one window: the mean of its observations when there are
    at least [min_periods] of them (and at least one), NaN otherwise. *)
Definition window_mean (min_periods : nat) (win : list float) : float :=
  let obs := observations win in
  if (min_periods <=? List.length obs)%nat && (0 <? List.length obs)%nat
  then Fin (Qred (Qmean obs))
  else NaN.

(** [.rolling(window=w)]: the window of position [i] covers the positions
    [max(i + 1 - w, 0)] up to [i]; [min_periods] defaults to [w]. *)
Definition window_at (w : nat) (x : list float) (i : nat) : list float :=
  slice (i + 1 - w) (i + 1) x.

(** [x.rolling(window=w).mean()] *)
Definition rolling_mean (w : nat) (x : list float) : list float :=
  map (fun i => window_mean w (window_at w x i)) (seq 0 (List.length x)).

(** [(a > b).astype(int)], element by element. *)
Definition gt_astype_int (a b : list float) : list Z :=
  map (fun ab => if float_gt (fst ab) (snd ab) then 1%Z else 0%Z)
      (combine a b).

Definition Zsum (l : list Z) : Z := fold_right Z.add 0%Z l.

(** [s.mean()] on an [int64] series: NaN on the empty series, without an
    exception. *)
Definition mean_int (s : list Z) : float :=
  match s with
  | [] => NaN
  | _ :: _ =>
      Fin (Qred (inject_Z (Zsum s) / inject_Z (Z.of_nat (List.length s))))
  end.

(** [.rolling(window=window)]: the window must be an integer (a [bool]
    does not count) that is 0 or greater. *)
Definition validate_window (window : yaml) : exn + Z :=
  match window with
  | YInt w =>
      if (0 <=? w)%Z then inr w
      else inl (ValueError "window must be an integer 0 or greater")
  | _ => inl (ValueError "window must be an integer 0 or greater")
  end.

(** [.mean()] of the rolling object refuses a column that is not numeric. *)
Definition rolling_mean_of (w : Z) (s : Series) : exn + list float :=
  match to_float64 s with
  | Some x => inr (rolling_mean (Z.to_nat w) x)
  | None => inl (DataError "Cannot aggregate non-numeric type: object")
  end.

End Pandas.

(** [round(x, 4)]: to the nearest multiple of 1/10000, ties to the even
    one; NaN stays NaN. *)
Definition round_half_even (q : Q) : Z :=
  let n := Qnum q in
  let d := Z.pos (Qden q) in
  let lo := (n / d)%Z in
  let twice_rest := (2 * (n mod d))%Z in
  if (twice_rest <? d)%Z then lo
  else if (d <? twice_rest)%Z then (lo + 1)%Z
  else if Z.even lo then lo else (lo + 1)%Z.

Definition py_round4 (x : float) : float :=
  match x with
  | NaN => NaN
  | Fin q => Fin (Qred (inject_Z (round_half_even (q * 10000)) / 10000))
  end.

(* ===================================================================== *)
(** ** Reports, the world, and the monad of [main] *)
(* ===================================================================== *)

(** The two dictionaries [main] hands to [write_metrics]. *)
Inductive RunReport : Type :=
| Success (version : yaml) (rows_processed : nat) (metric : string)
          (value : float) (latency_ms : Z) (seed : yaml) (status : string)
| Error (version : yaml) (status : string) (error_message : string).

Definition report_json_ok (r : RunReport) : bool :=
  match r with
  | Success version _ _ _ _ seed _ => json_ok version && json_ok seed
  | Error version _ _ => json_ok version
  end.

Record Args : Type := {
  arg_input : string;
  arg_config : string;
  arg_output : string;
  arg_log_file : string
}.

(** Everything [main] reads from outside.
    - [config_file]: [None] when [os.path.exists(args.config)] is false,
      otherwise what [open] followed by [yaml.safe_load] gives.
    - [input_file]: [None] when [os.path.exists(args.input)] is false,
      otherwise the lines the file yields, or the exception of reading it.
    - [read_csv]: [pd.read_csv] on a text.
    - [np_random_seed]: [np.random.seed].
    - [elapsed_ms]: [int((time.time() - start_time) * 1000)] at step 6. *)
Record World : Type := {
  args : Args;
  config_file : option (exn + yaml);
  input_file : option (exn + list string);
  read_csv : string -> exn + Pandas.DataFrame;
  np_random_seed : yaml -> exn + unit;
  elapsed_ms : Z
}.

(** The part of the state of [main] that outlives an exception: the local
    [config], and the reports [write_metrics] has written so far. *)
Record Frame : Type := {
  fr_config : yaml;
  fr_written : list RunReport
}.

Definition Py (A : Type) : Type := Frame -> Frame * (exn + A).

Definition ret {A : Type} (a : A) : Py A := fun fr => (fr, inr a).

Definition raise {A : Type} (e : exn) : Py A := fun fr => (fr, inl e).

Definition bind {A B : Type} (c : Py A) (k : A -> Py B) : Py B :=
  fun fr =>
    match c fr with
    | (fr', inl e) => (fr', inl e)
    | (fr', inr a) => k a fr'
    end.

(** A library call: its exception propagates. *)
Definition call {A : Type} (r : exn + A) : Py A := fun fr => (fr, r).

Definition get_config : Py yaml := fun fr => (fr, inr (fr_config fr)).

Definition set_config (v : yaml) : Py unit :=
  fun fr => ({| fr_config := v; fr_written := fr_written fr |}, inr tt).

Declare Scope py_scope.
Delimit Scope py_scope with py.
Notation "x <- c ;; k" := (bind c (fun x => k))
  (at level 61, c at next level, right associativity) : py_scope.
Notation "c ;; k" := (bind c (fun _ => k))
  (at level 61, right associativity) : py_scope.

(** [write_metrics(output_path, metrics)]: [json.dump] raises [TypeError]
    on a value it cannot serialise, leaving a truncated output file and no
    report; otherwise the report is in the output file and on standard
    output. *)
Definition write_metrics (metrics : RunReport) : Py unit :=
  fun fr =>
    if report_json_ok metrics
    then ({| fr_config := fr_config fr;
             fr_written := (fr_written fr ++ [metrics])%list |}, inr tt)
    else (fr, inl (TypeError "Object of type date is not JSON serializable")).

(** How the process ends. *)
Inductive ExitStatus : Type :=
| ExitCode (code : Z)
| Uncaught (e : exn).

Record Outcome : Type := {
  reports : list RunReport;
  exit : ExitStatus
}.

(* ===================================================================== *)
(** ** [main] *)
(* ===================================================================== *)

Local Open Scope py_scope.

Definition required_keys : list string := ["seed"; "window"; "version"].

(** [for key in keys: if key not in config: raise ValueError(...)] *)
Fixpoint validate_keys (keys : list string) : Py unit :=
  match keys with
  | [] => ret tt
  | key :: rest =>
      config <- get_config ;;
      present <- call (py_in key config) ;;
      if (present : bool) then validate_keys rest
      else raise (ValueError ("Missing required config field: " ++ key))
  end.

(** Step 2, load and validate the config; then the seed is set. *)
Definition load_config (W : World) : Py unit :=
  match config_file W with
  | None =>
      raise (FileNotFoundError
               ("Config file not found: " ++ arg_config (args W)))
  | Some loaded =>
      v <- call loaded ;;
      set_config v ;;
      validate_keys required_keys ;;
      config <- get_config ;;
      seed <- call (py_getitem config "seed") ;;
      call (np_random_seed W seed)
  end.

(** The two checks on the parsed frame. *)
Definition validate_dataset (df : Pandas.DataFrame) : Py Pandas.DataFrame :=
  if Pandas.empty df then raise (ValueError "Input CSV is empty")
  else if negb (Pandas.has_column "close" df)
       then raise (ValueError "Missing required column: 'close'")
       else ret df.

(** Step 3, load and validate the dataset. *)
Definition load_dataset (W : World) : Py Pandas.DataFrame :=
  match input_file W with
  | None =>
      raise (FileNotFoundError
               ("Input file not found: " ++ arg_input (args W)))
  | Some content =>
      raw_f <- call content ;;
      df <- call (read_csv W (cleaned raw_f)) ;;
      validate_dataset df
  end.

(** The locals of [main] when the [try] body has run to its end. *)
Record Locals : Type := {
  df : Pandas.DataFrame;
  window : Z;
  close : list float;
  rolling_mean : list float;
  signal : list Z;
  valid_signals : list Z;
  metrics : RunReport
}.

(** [df['close']]: the column is there once step 3 has passed. *)
Definition df_getitem (d : Pandas.DataFrame) (name : string)
  : exn + Pandas.Series :=
  match Pandas.column name (Pandas.df_columns d) with
  | Some s => inr s
  | None => inl (KeyError ("'" ++ name ++ "'"))
  end.

(** Steps 4 to 6: rolling mean, signal, metrics. *)
Definition process (W : World) (df0 : Pandas.DataFrame) : Py Locals :=
  config <- get_config ;;
  window_v <- call (py_getitem config "window") ;;
  close_s <- call (df_getitem df0 "close") ;;
  w <- call (Pandas.validate_window window_v) ;;
  rm <- call (Pandas.rolling_mean_of w close_s) ;;
  let df1 := Pandas.assign "rolling_mean" (Pandas.Float64 rm) df0 in
  let closes := match Pandas.to_float64 close_s with
                | Some x => x
                | None => []
                end in
  let sig := Pandas.gt_astype_int closes rm in
  let df2 := Pandas.assign "signal" (Pandas.Int64 sig) df1 in
  let valid := Pandas.slice_from (w - 1) sig in
  version <- call (py_getitem config "version") ;;
  seed <- call (py_getitem config "seed") ;;
  let report :=
    Success version (Pandas.df_len df2) "signal_rate"
            (py_round4 (Pandas.mean_int valid)) (elapsed_ms W) seed
            "success" in
  write_metrics report ;;
  ret {| df := df2; window := w; close := closes; rolling_mean := rm;
         signal := sig; valid_signals := valid; metrics := report |}.

(** The body of the [try]. *)
Definition main_try (W : World) : Py Locals :=
  load_config W ;;
  df0 <- load_dataset W ;;
  process W df0.

(** The [except Exception as e] block, up to [sys.exit(1)]. *)
Definition handler (e : exn) : Py unit :=
  config <- get_config ;;
  version <- call (py_get config "version" (YStr "unknown")) ;;
  write_metrics (Error version "error" (exn_msg e)).

(** The first required key, in the order of the check, that a mapping
    lacks. *)
Definition first_missing (entries : list (string * yaml)) : option string :=
  find (fun key => negb (dict_has key entries)) required_keys.

(** The frame [main] enters the [try] with: [config = {}]. *)
Definition initial_frame : Frame :=
  {| fr_config := YMap []; fr_written := [] |}.

(** The frame once [config] has been bound to [v]. *)
Definition frame_with (v : yaml) : Frame :=
  {| fr_config := v; fr_written := [] |}.

Definition main (W : World) : Outcome :=
  match main_try W initial_frame with
  | (fr, inr _) => {| reports := fr_written fr; exit := ExitCode 0 |}
  | (fr, inl e) =>
      match handler e fr with
      | (fr', inr _) => {| reports := fr_written fr'; exit := ExitCode 1 |}
      | (fr', inl e') => {| reports := fr_written fr'; exit := Uncaught e' |}
      end
  end.

Local Close Scope py_scope.

(** The two values a signal takes. *)
Definition is_bit (z : Z) : Prop := z = 0%Z \/ z = 1%Z.

(** The [value] entry of a report, when it has one. *)
Definition report_value (r : RunReport) : option float :=
  match r with
  | Success _ _ _ value _ _ _ => Some value
  | Error _ _ _ => None
  end.

(** The [try] body runs to its end in world [W], leaving the locals [L]. *)
Definition completes (W : World) (L : Locals) : Prop :=
  exists fr, main_try W initial_frame = (fr, inr L).

(* ===================================================================== *)
(** ** The signal as the specification words it *)
(* ===================================================================== *)

Module SpecSignal.



(** The [close] values at the [w] positions that end at position [i]. *)
Definition last_values (w : nat) (closes : list float) (i : nat)
  : list float :=
  map (fun j => nth j closes NaN) (seq (i + 1 - w) w).


End SpecSignal.

(* ===================================================================== *)
(** ** Concrete inputs *)
(* ===================================================================== *)

Module Demo.



Definition demo_args : Args :=
  {| arg_input := "data.csv"; arg_config := "config.yaml";
     arg_output := "metrics.json"; arg_log_file := "run.log" |}.

Definition closes_of (l : list Z) : list float :=
  map (fun z => Fin (inject_Z z)) l.

Definition decimal (z : Z) : string := NilZero.string_of_int (Z.to_int z).

(** The lines of a data file with the single column [close]: the header
    and one integer per row, each line wrapped in double quotes. *)
Definition data_csv (closes : list Z) : list string :=
  map (fun content => PyStr.quoted content ++ PyStr.newline)
      ("close" :: map decimal closes).

(** The same file without the wrapping quotes. *)
Definition plain_csv (closes : list Z) : string :=
  PyStr.join (map (fun content => content ++ PyStr.newline)
                  ("close" :: map decimal closes)).

(** What the parser makes of [plain_csv closes]. *)
Definition frame_of (closes : list Z) : Pandas.DataFrame :=
  {| Pandas.df_len := List.length closes;
     Pandas.df_columns := [("close", Pandas.Int64 closes)] |}.

(** A parser that knows this one text. *)
Definition read_plain_csv (closes : list Z) (text : string)
  : exn + Pandas.DataFrame :=
  if String.eqb text (plain_csv closes) then inr (frame_of closes)
  else inl (Exn "ParserError" "Error tokenizing data").

(** A world in which both files exist, the config file loads as [cfg] and
    the data file is [data_csv closes]. *)
Definition world_of (cfg : yaml) (closes : list Z) : World :=
  {| args := demo_args;
     config_file := Some (inr cfg);
     input_file := Some (inr (data_csv closes));
     read_csv := read_plain_csv closes;
     np_random_seed := fun _ => inr tt;
     elapsed_ms := 12 |}.

Definition config_of (window_v : yaml) : yaml :=
  YMap [("seed", YInt 42); ("window", window_v); ("version", YStr "v1")].

Definition no_locals : Locals :=
  {| df := frame_of []; window := 0%Z; close := []; rolling_mean := [];
     signal := []; valid_signals := []; metrics := Error YNull "" "" |}.

(** The locals of the run in [W], when the [try] body completes. *)
Definition locals_of (W : World) : Locals :=
  match main_try W initial_frame with
  | (_, inr L) => L
  | (_, inl _) => no_locals
  end.

(** Five rows with close 1 to 5 and a window of 3. *)
Definition world_1_to_5 : World :=
  world_of (config_of (YInt 3)) [1; 2; 3; 4; 5]%Z.

(** Two rows and a window of 3: no position has a full window. *)
Definition world_short : World :=
  world_of (config_of (YInt 3)) [1; 2]%Z.

(** Two rows and a window of 2, with three different first close values. *)
Definition world_low_start : World :=
  world_of (config_of (YInt 2)) [1; 2]%Z.



(** Three rows and a window of 1. *)
Definition world_window_1 : World :=
  world_of (config_of (YInt 1)) [7; 3; 9]%Z.

(** An empty config file: [yaml.safe_load] returns [None]. *)
Definition world_empty_config : World :=
  world_of YNull [1; 2; 3]%Z.

End Demo.

(* ===================================================================== *)
(** ** Notions for the run as a whole *)
(* ===================================================================== *)

Definition is_mapping (v : yaml) : bool :=
  match v with
  | YMap _ => true
  | _ => false
  end.

(** What [config.get("version", "unknown")] gives on a mapping. *)
Definition recovered_version (entries : list (string * yaml)) : yaml :=
  match dict_lookup "version" entries with
  | Some v => v
  | None => YStr "unknown"
  end.

(** The handler gets its report out: [config] has a [get] method and the
    version it finds can be serialised. *)
Definition handler_can_report (cfg : yaml) : bool :=
  match cfg with
  | YMap entries => json_ok (recovered_version entries)
  | _ => false
  end.

(** A run that ends with one error report and [sys.exit(1)]. *)
Definition error_outcome (version : yaml) (message : string) : Outcome :=
  {| reports := [Error version "error" message]; exit := ExitCode 1 |}.

(** A run that ends with one success report and exit code 0. *)
Definition success_outcome (report : RunReport) : Outcome :=
  {| reports := [report]; exit := ExitCode 0 |}.

(** The value the job reports for a window [w] and close values [x]. *)
Definition signal_rate (w : Z) (x : list float) : float :=
  py_round4
    (Pandas.mean_int
       (Pandas.slice_from (w - 1)
          (Pandas.gt_astype_int x (Pandas.rolling_mean (Z.to_nat w) x)))).


(** Neither end of [s] is whitespace or a double quote. *)
Definition clean_ends (s : string) : bool :=
  negb (PyStr.holds_at PyStr.is_space (PyStr.first_char s))
  && negb (PyStr.holds_at PyStr.is_space (PyStr.last_char s))
  && negb (PyStr.holds_at PyStr.is_dquote (PyStr.first_char s))
  && negb (PyStr.holds_at PyStr.is_dquote (PyStr.last_char s)).

Module Edge.

(** A world given by what each outside call returns. *)
Definition world_with (cfg : option (exn + yaml))
    (input : option (exn + list string))
    (parser : string -> exn + Pandas.DataFrame)
    (seeding : yaml -> exn + unit) : World :=
  {| args := Demo.demo_args;
     config_file := cfg;
     input_file := input;
     read_csv := parser;
     np_random_seed := seeding;
     elapsed_ms := 12 |}.

Definition accept_seed (seed : yaml) : exn + unit := inr tt.

(** A data file given by the content of its lines, each wrapped in double
    quotes; the same text unwrapped; and a parser that knows this one text
    and makes the frame [d] of it. *)
Definition file_of (contents : list string) : list string :=
  map (fun c => PyStr.quoted c ++ PyStr.newline) contents.

Definition text_of (contents : list string) : string :=
  PyStr.join (map (fun c => c ++ PyStr.newline) contents).

Definition parses (contents : list string) (d : Pandas.DataFrame)
    (text : string) : exn + Pandas.DataFrame :=
  if String.eqb text (text_of contents) then inr d
  else inl (Exn "ParserError" "Error tokenizing data").

(** [np.random.seed] on a negative integer. *)
Definition reject_negative_seed (seed : yaml) : exn + unit :=
  match seed with
  | YInt z =>
      if (z <? 0)%Z
      then inl (ValueError "Seed must be between 0 and 2**32 - 1")
      else inr tt
  | _ => inr tt
  end.

Definition good_config : option (exn + yaml) :=
  Some (inr (Demo.config_of (YInt 2))).

(** The config file is missing. *)
Definition world_no_config : World :=
  world_with None (Some (inr (Demo.data_csv [1; 2]%Z)))
             (Demo.read_plain_csv [1; 2]%Z) accept_seed.

(** The config file is a YAML list of the three key names. *)
Definition world_list_config : World :=
  world_with (Some (inr (YList [YStr "seed"; YStr "window";
                                YStr "version"])))
             (Some (inr (Demo.data_csv [1; 2]%Z)))
             (Demo.read_plain_csv [1; 2]%Z) accept_seed.

(** The seed is refused; one world has the data file, the other has not. *)
Definition bad_seed_config : option (exn + yaml) :=
  Some (inr (YMap [("seed", YInt (-1)); ("window", YInt 2);
                   ("version", YStr "v1")])).

Definition world_bad_seed : World :=
  world_with bad_seed_config (Some (inr (Demo.data_csv [1; 2]%Z)))
             (Demo.read_plain_csv [1; 2]%Z) reject_negative_seed.

Definition world_bad_seed_no_data : World :=
  world_with bad_seed_config None
             (Demo.read_plain_csv [1; 2]%Z) reject_negative_seed.

(** The data file is missing. *)
Definition world_no_input : World :=
  world_with good_config None (Demo.read_plain_csv [1; 2]%Z) accept_seed.

(** The data file has a header and no row, and no [close] column. *)
Definition frame_no_rows : Pandas.DataFrame :=
  {| Pandas.df_len := 0;
     Pandas.df_columns := [("open", Pandas.Object [])] |}.

Definition world_no_rows : World :=
  world_with good_config (Some (inr (file_of ["open"])))
             (parses ["open"] frame_no_rows) accept_seed.

(** The data file has rows and no [close] column. *)
Definition frame_no_close : Pandas.DataFrame :=
  {| Pandas.df_len := 2;
     Pandas.df_columns := [("open", Pandas.Int64 [1; 2]%Z)] |}.

Definition world_no_close : World :=
  world_with good_config (Some (inr (file_of ["open"; "1"; "2"])))
             (parses ["open"; "1"; "2"] frame_no_close) accept_seed.

(** The [close] column holds text. *)
Definition frame_text_close : Pandas.DataFrame :=
  {| Pandas.df_len := 2;
     Pandas.df_columns := [("close", Pandas.Object ["low"; "high"])] |}.

Definition world_text_close : World :=
  world_with good_config (Some (inr (file_of ["close"; "low"; "high"])))
             (parses ["close"; "low"; "high"] frame_text_close) accept_seed.

(** A negative window, and a window of 0, on three rows. *)
Definition world_negative_window : World :=
  Demo.world_of (Demo.config_of (YInt (-3))) [1; 2; 3]%Z.

Definition world_window_0 : World :=
  Demo.world_of (Demo.config_of (YInt 0)) [1; 2; 3]%Z.

(** Four rows whose second close is missing, under a window of 2. *)
Definition frame_with_gap : Pandas.DataFrame :=
  {| Pandas.df_len := 4;
     Pandas.df_columns :=
       [("date", Pandas.Object ["d1"; "d2"; "d3"; "d4"]);
        ("close", Pandas.Float64 [Fin 1; NaN; Fin 3; Fin 5])] |}.

Definition gap_rows : list string :=
  ["date,close"; "d1,1"; "d2,"; "d3,3"; "d4,5"].

Definition world_gap : World :=
  world_with good_config (Some (inr (file_of gap_rows)))
             (parses gap_rows frame_with_gap) accept_seed.

End Edge.

(* ===================================================================== *)
(** * Properties *)
(* ===================================================================== *)

(* ===================================================================== *)
(** ** Stripping: what [str.strip] removes and what it leaves *)
(* ===================================================================== *)

Section Strip.

Variable p : ascii -> bool.






Lemma lstrip_all (a t : string) :
  PyStr.all_chars p a = true -> PyStr.lstrip p (a ++ t) = PyStr.lstrip p t.
Proof.
  induction a as [|c a IH]; simpl; [reflexivity|].
  intro H. apply andb_prop in H. destruct H as [Hc Ha].
  rewrite Hc. exact (IH Ha).
Qed.

Lemma lstrip_nothing (t : string) :
  PyStr.holds_at p (PyStr.first_char t) = false -> PyStr.lstrip p t = t.
Proof.
  destruct t as [|c rest]; simpl; [reflexivity|].
  intro Hc. rewrite Hc. reflexivity.
Qed.

Lemma rstrip_all (b : string) :
  PyStr.all_chars p b = true -> PyStr.rstrip p b = EmptyString.
Proof.
  induction b as [|c b IH]; simpl; [reflexivity|].
  intro H. apply andb_prop in H. destruct H as [Hc Hb].
  rewrite (IH Hb), Hc. reflexivity.
Qed.

Lemma rstrip_kept (m b : string) :
  PyStr.holds_at p (PyStr.last_char m) = false ->
  PyStr.all_chars p b = true ->
  PyStr.rstrip p (m ++ b) = m.
Proof.
  induction m as [|c m IH]; intros Hlast Hb.
  - simpl. apply rstrip_all. exact Hb.
  - simpl. destruct m as [|k m'].
    + simpl in *. rewrite (rstrip_all b Hb), Hlast. reflexivity.
    + rewrite (IH Hlast Hb). reflexivity.
Qed.

Lemma append_nil_r (s : string) : s ++ EmptyString = s.
Proof. induction s as [|c s IH]; simpl; [|rewrite IH]; reflexivity. Qed.

(** The middle that [strip_by] keeps is determined by the two runs it
    removes. *)
Lemma strip_by_unique (a m b : string) :
  PyStr.all_chars p a = true ->
  PyStr.all_chars p b = true ->
  PyStr.holds_at p (PyStr.first_char m) = false ->
  PyStr.holds_at p (PyStr.last_char m) = false ->
  PyStr.strip_by p (a ++ m ++ b) = m.
Proof.
  intros Ha Hb Hfirst Hlast. unfold PyStr.strip_by.
  rewrite (lstrip_all a _ Ha).
  destruct m as [|c m'].
  - simpl. rewrite <- (append_nil_r b) at 1.
    rewrite (lstrip_all b _ Hb). reflexivity.
  - rewrite lstrip_nothing by exact Hfirst.
    apply rstrip_kept; assumption.
Qed.


End Strip.

Lemma char_in_dquote (c : ascii) :
  PyStr.char_in c (String PyStr.dquote EmptyString) = PyStr.is_dquote c.
Proof. simpl. apply orb_false_r. Qed.

(* ===================================================================== *)
(** ** Input repair *)
(* ===================================================================== *)

Lemma repair_line_unfold (line : string) :
  repair_line line = PyStr.strip_by PyStr.is_dquote (PyStr.strip line).
Proof.
  unfold repair_line, PyStr.strip_chars, PyStr.strip_by.
  generalize (PyStr.strip line). intro s.
  set (in_q := fun c => PyStr.char_in c (String PyStr.dquote EmptyString)).
  assert (E : forall c, in_q c = PyStr.is_dquote c)
    by (intro c; apply char_in_dquote).
  assert (L : forall t, PyStr.lstrip in_q t = PyStr.lstrip PyStr.is_dquote t).
  { induction t as [|c t IH]; cbn [PyStr.lstrip]; [reflexivity|].
    rewrite E, IH. reflexivity. }
  assert (R : forall t, PyStr.rstrip in_q t = PyStr.rstrip PyStr.is_dquote t).
  { induction t as [|c t IH]; cbn [PyStr.rstrip]; [reflexivity|].
    rewrite E, IH. reflexivity. }
  rewrite L, R. reflexivity.
Qed.





(* ===================================================================== *)
(** ** Config validation *)
(* ===================================================================== *)

Lemma validate_keys_mapping (entries : list (string * yaml)) (fr : Frame) :
  fr_config fr = YMap entries ->
  validate_keys required_keys fr
  = (fr, match first_missing entries with
         | Some key =>
             inl (ValueError ("Missing required config field: " ++ key))
         | None => inr tt
         end).
Proof.
  destruct fr as [cfg out]. cbn [fr_config]. intros ->.
  cbv beta iota delta [first_missing required_keys validate_keys find bind
                         get_config call py_in fr_config ret raise negb].
  destruct (dict_has "seed" entries); [|reflexivity].
  destruct (dict_has "window" entries); [|reflexivity].
  destruct (dict_has "version" entries); reflexivity.
Qed.

Lemma load_config_loaded (W : World) (v : yaml) (fr : Frame) :
  config_file W = Some (inr v) ->
  load_config W fr
  = match validate_keys required_keys
            {| fr_config := v; fr_written := fr_written fr |} with
    | (fr', inl e) => (fr', inl e)
    | (fr', inr _) =>
        match py_getitem (fr_config fr') "seed" with
        | inl e => (fr', inl e)
        | inr seed => (fr', np_random_seed W seed)
        end
    end.
Proof.
  intro H. unfold load_config. rewrite H.
  unfold bind, call, set_config, get_config.
  destruct (validate_keys required_keys _) as [fr' [e|u]]; [reflexivity|].
  destruct (py_getitem (fr_config fr') "seed"); reflexivity.
Qed.

(** What [main] does once the [try] body has raised [e] in frame [fr]. *)
Lemma main_on_exception (W : World) (fr : Frame) (e : exn) :
  main_try W initial_frame = (fr, inl e) ->
  main W
  = match py_get (fr_config fr) "version" (YStr "unknown") with
    | inl e' => {| reports := fr_written fr; exit := Uncaught e' |}
    | inr version =>
        if json_ok version
        then {| reports := (fr_written fr
                            ++ [Error version "error" (exn_msg e)])%list;
                exit := ExitCode 1 |}
        else {| reports := fr_written fr;
                exit := Uncaught
                          (TypeError
                             "Object of type date is not JSON serializable") |}
    end.
Proof.
  intro H. unfold main. rewrite H.
  unfold handler, bind, get_config, call, write_metrics.
  destruct (py_get (fr_config fr) "version" (YStr "unknown")) as [e'|version];
    [reflexivity|].
  cbn [report_json_ok]. destruct (json_ok version); reflexivity.
Qed.

Lemma main_try_config_failure (W : World) (fr : Frame) (e : exn) :
  load_config W initial_frame = (fr, inl e) ->
  main_try W initial_frame = (fr, inl e).
Proof. intro H. unfold main_try, bind. rewrite H. reflexivity. Qed.

(** C5: a config mapping that lacks a required key fails validation with
    [Missing required config field: <key>], where [<key>] is the first
    absent key in the order seed, window, version; the message is the
    [error_message] of the error report; a mapping with [seed] and without
    [window] names [window]. *)
Theorem missing_config_key_is_named
    (W : World) (entries : list (string * yaml)) (key : string) :
  config_file W = Some (inr (YMap entries)) ->
  first_missing entries = Some key ->
  main_try W initial_frame
  = (frame_with (YMap entries),
     inl (ValueError ("Missing required config field: " ++ key)))
  /\ (forall version,
        py_get (YMap entries) "version" (YStr "unknown") = inr version ->
        json_ok version = true ->
        main W = {| reports :=
                      [Error version "error"
                             ("Missing required config field: " ++ key)];
                    exit := ExitCode 1 |})
  /\ ((key = "seed" /\ dict_has "seed" entries = false)
      \/ (key = "window" /\ dict_has "seed" entries = true
          /\ dict_has "window" entries = false)
      \/ (key = "version" /\ dict_has "seed" entries = true
          /\ dict_has "window" entries = true
          /\ dict_has "version" entries = false))
  /\ (dict_has "seed" entries = true ->
      dict_has "window" entries = false ->
      "Missing required config field: " ++ key
      = "Missing required config field: window").
Proof.
  intros Hfile Hmiss.
  assert (Htry : main_try W initial_frame
                 = (frame_with (YMap entries),
                    inl (ValueError
                           ("Missing required config field: " ++ key)))).
  { apply main_try_config_failure.
    rewrite (load_config_loaded W _ _ Hfile).
    rewrite (validate_keys_mapping entries) by reflexivity.
    rewrite Hmiss. reflexivity. }
  split; [exact Htry|]. split.
  - intros version Hget Hjson.
    rewrite (main_on_exception W _ _ Htry).
    cbn [frame_with fr_config fr_written]. rewrite Hget, Hjson. reflexivity.
  - unfold first_missing, required_keys in Hmiss. cbn [find] in Hmiss.
    destruct (dict_has "seed" entries) eqn:Hs; cbn [negb] in Hmiss.
    + destruct (dict_has "window" entries) eqn:Hw; cbn [negb] in Hmiss.
      * destruct (dict_has "version" entries) eqn:Hv; cbn [negb] in Hmiss;
          [discriminate|].
        injection Hmiss as <-. split; [|intros _ H; discriminate H].
        right. right. auto.
      * injection Hmiss as <-. split; [|reflexivity].
        right. left. auto.
    + injection Hmiss as <-. split; [|intros H; discriminate H].
      left. auto.
Qed.

(** A mapping with only [seed]: the report names [window]. *)
Lemma missing_config_key_is_named_witness :
  main (Demo.world_of (YMap [("seed", YInt 42)]) [])
  = {| reports := [Error (YStr "unknown") "error"
                         "Missing required config field: window"];
       exit := ExitCode 1 |}.
Proof.
  apply (proj1 (proj2 (missing_config_key_is_named
                         (Demo.world_of (YMap [("seed", YInt 42)]) [])
                         [("seed", YInt 42)] "window"
                         eq_refl eq_refl))).
  - reflexivity.
  - reflexivity.
Defined.

(** C10: validation looks at the presence of the three keys and at nothing
    else: a mapping that has them passes whatever their values are, and
    the config stage then depends on the seed alone, so a window that is
    zero, negative or not an integer is not rejected there. *)
Theorem validation_checks_presence_only
    (entries : list (string * yaml)) (seed_v window_v version_v : yaml) :
  dict_lookup "seed" entries = Some seed_v ->
  dict_lookup "window" entries = Some window_v ->
  dict_lookup "version" entries = Some version_v ->
  (forall fr, fr_config fr = YMap entries ->
              validate_keys required_keys fr = (fr, inr tt))
  /\ (forall W, config_file W = Some (inr (YMap entries)) ->
                load_config W initial_frame
                = (frame_with (YMap entries), np_random_seed W seed_v)).
Proof.
  intros Hs Hw Hv.
  assert (Hnone : first_missing entries = None).
  { unfold first_missing, required_keys, dict_has. cbn [find].
    rewrite Hs, Hw, Hv. reflexivity. }
  split.
  - intros fr Hfr. rewrite (validate_keys_mapping entries fr Hfr), Hnone.
    reflexivity.
  - intros W Hfile. rewrite (load_config_loaded W _ _ Hfile).
    rewrite (validate_keys_mapping entries) by reflexivity.
    rewrite Hnone. cbn [fr_config py_getitem]. rewrite Hs. reflexivity.
Qed.

(** A negative window passes the config stage. *)
Lemma validation_checks_presence_only_witness :
  load_config (Demo.world_of (Demo.config_of (YInt (-3))) []) initial_frame
  = (frame_with (Demo.config_of (YInt (-3))), inr tt).
Proof.
  apply (proj2 (validation_checks_presence_only
                  [("seed", YInt 42); ("window", YInt (-3));
                   ("version", YStr "v1")]
                  (YInt 42) (YInt (-3)) (YStr "v1")
                  eq_refl eq_refl eq_refl)
               (Demo.world_of (Demo.config_of (YInt (-3))) [])).
  reflexivity.
Defined.

(* ===================================================================== *)
(** ** Rolling mean and signal *)
(* ===================================================================== *)

Lemma nth_map_seq {A : Type} (f : nat -> A) (n i : nat) (d : A) :
  i < n -> nth i (map f (seq 0 n)) d = f i.
Proof.
  intro H.
  rewrite (nth_indep _ d (f 0)) by (rewrite length_map, length_seq; exact H).
  rewrite map_nth, seq_nth by exact H. reflexivity.
Qed.

Lemma firstn_skipn_positions {A : Type} (d : A) (x : list A) (s n : nat) :
  s + n <= List.length x ->
  firstn n (skipn s x) = map (fun j => nth j x d) (seq s n).
Proof.
  revert s n. induction x as [|a x IH]; intros s n H.
  - cbn [List.length] in H. assert (s = 0) by lia. assert (n = 0) by lia.
    subst. reflexivity.
  - destruct s as [|s].
    + destruct n as [|n]; [reflexivity|].
      cbn [skipn firstn seq map nth]. f_equal.
      cbn [List.length] in H.
      change x with (skipn 0 x) at 1. rewrite (IH 0 n) by lia.
      rewrite <- seq_shift, map_map. reflexivity.
    + cbn [skipn]. cbn [List.length] in H. rewrite (IH s n) by lia.
      rewrite <- seq_shift, map_map. reflexivity.
Qed.

Lemma length_rolling_mean (w : nat) (x : list float) :
  List.length (Pandas.rolling_mean w x) = List.length x.
Proof.
  unfold Pandas.rolling_mean. rewrite length_map, length_seq. reflexivity.
Qed.

Lemma nth_rolling_mean (w : nat) (x : list float) (i : nat) :
  i < List.length x ->
  nth i (Pandas.rolling_mean w x) NaN
  = Pandas.window_mean w (Pandas.window_at w x i).
Proof.
  intro H. unfold Pandas.rolling_mean.
  exact (nth_map_seq
           (fun j => Pandas.window_mean w (Pandas.window_at w x j)) _ i NaN H).
Qed.





Lemma window_at_full (w : nat) (x : list float) (i : nat) :
  1 <= w -> w - 1 <= i -> i < List.length x ->
  Pandas.window_at w x i = SpecSignal.last_values w x i.
Proof.
  intros Hw Hi Hx.
  unfold Pandas.window_at, Pandas.slice, SpecSignal.last_values.
  replace (i + 1 - (i + 1 - w)) with w by lia.
  apply firstn_skipn_positions. lia.
Qed.


Lemma length_gt_astype_int (a b : list float) :
  List.length a = List.length b ->
  List.length (Pandas.gt_astype_int a b) = List.length a.
Proof.
  intro H. unfold Pandas.gt_astype_int.
  rewrite length_map, length_combine. lia.
Qed.

Lemma nth_gt_astype_int (a b : list float) (i : nat) :
  List.length a = List.length b ->
  nth i (Pandas.gt_astype_int a b) 0%Z
  = if float_gt (nth i a NaN) (nth i b NaN) then 1%Z else 0%Z.
Proof.
  intro H. unfold Pandas.gt_astype_int.
  set (f := fun ab : float * float =>
              if float_gt (fst ab) (snd ab) then 1%Z else 0%Z).
  transitivity (f (nth i (combine a b) (NaN, NaN))).
  - exact (map_nth f (combine a b) (NaN, NaN) i).
  - rewrite combine_nth by exact H. reflexivity.
Qed.

Lemma float_gt_nan_r (a : float) : float_gt a NaN = false.
Proof. destruct a; reflexivity. Qed.

(* ===================================================================== *)
(** ** What a completed run has computed *)
(* ===================================================================== *)

(** Closes a goal [(fr, r) = (fr', r') -> fr' = fr] or
    [... -> fr_written fr' = []] once the left side has been computed. *)
Ltac frame_kept :=
  let H := fresh "H" in intro H; injection H as <- _; reflexivity.

Lemma validate_keys_frame (keys : list string) (fr fr' : Frame)
    (r : exn + unit) :
  validate_keys keys fr = (fr', r) -> fr' = fr.
Proof.
  revert fr fr' r. induction keys as [|key rest IH]; intros fr fr' r.
  - cbn. frame_kept.
  - cbn [validate_keys]. unfold bind, get_config, call.
    destruct (py_in key (fr_config fr)) as [e|[|]].
    + frame_kept.
    + apply IH.
    + unfold raise. frame_kept.
Qed.

Lemma load_config_inv (W : World) (fr : Frame) :
  load_config W initial_frame = (fr, inr tt) ->
  exists cfg, config_file W = Some (inr cfg) /\ fr = frame_with cfg.
Proof.
  intro H.
  destruct (config_file W) as [[e|cfg]|] eqn:Hfile;
    try (unfold load_config in H; rewrite Hfile in H; discriminate H).
  exists cfg. split; [reflexivity|].
  rewrite (load_config_loaded W cfg _ Hfile) in H.
  destruct (validate_keys required_keys _) as [fr0 [e|u]] eqn:Hv;
    [discriminate|].
  apply validate_keys_frame in Hv. subst fr0.
  destruct (py_getitem _ "seed"); [discriminate|].
  injection H as <- _. reflexivity.
Qed.

Lemma load_dataset_inv (W : World) (fr fr' : Frame) (d : Pandas.DataFrame) :
  load_dataset W fr = (fr', inr d) ->
  fr' = fr
  /\ Pandas.empty d = false
  /\ Pandas.has_column "close" d = true
  /\ exists raw_f, input_file W = Some (inr raw_f)
                   /\ read_csv W (cleaned raw_f) = inr d.
Proof.
  unfold load_dataset.
  destruct (input_file W) as [[e|raw_f]|];
    try (unfold bind, call, raise; cbn; discriminate).
  unfold bind, call, validate_dataset, raise, ret.
  destruct (read_csv W (cleaned raw_f)) as [e|d0] eqn:Hr; [discriminate|].
  destruct (Pandas.empty d0) eqn:He; [discriminate|].
  destruct (Pandas.has_column "close" d0) eqn:Hc; cbn [negb];
    [|discriminate].
  intro H. injection H as <- <-.
  repeat split; try assumption. exists raw_f. split; [reflexivity|exact Hr].
Qed.

Lemma validate_window_inv (v : yaml) (w : Z) :
  Pandas.validate_window v = inr w -> v = YInt w /\ (0 <= w)%Z.
Proof.
  destruct v; cbn; try discriminate.
  destruct (0 <=? z)%Z eqn:E; [|discriminate].
  intro H. injection H as <-. split; [reflexivity|].
  apply Z.leb_le. exact E.
Qed.

Lemma process_inv (W : World) (df0 : Pandas.DataFrame) (fr fr' : Frame)
    (L : Locals) :
  process W df0 fr = (fr', inr L) ->
  exists close_s version seed,
    py_getitem (fr_config fr) "window" = inr (YInt (window L))
    /\ (0 <= window L)%Z
    /\ df_getitem df0 "close" = inr close_s
    /\ Pandas.to_float64 close_s = Some (close L)
    /\ rolling_mean L
       = Pandas.rolling_mean (Z.to_nat (window L)) (close L)
    /\ signal L = Pandas.gt_astype_int (close L) (rolling_mean L)
    /\ valid_signals L = Pandas.slice_from (window L - 1) (signal L)
    /\ df L = Pandas.assign "signal" (Pandas.Int64 (signal L))
                (Pandas.assign "rolling_mean"
                   (Pandas.Float64 (rolling_mean L)) df0)
    /\ py_getitem (fr_config fr) "version" = inr version
    /\ py_getitem (fr_config fr) "seed" = inr seed
    /\ metrics L
       = Success version (Pandas.df_len df0) "signal_rate"
                 (py_round4 (Pandas.mean_int (valid_signals L)))
                 (elapsed_ms W) seed "success"
    /\ fr' = {| fr_config := fr_config fr;
                fr_written := (fr_written fr ++ [metrics L])%list |}.
Proof.
  unfold process, bind, get_config, call, ret.
  destruct (py_getitem (fr_config fr) "window") as [e|window_v] eqn:Hw;
    [discriminate|].
  destruct (df_getitem df0 "close") as [e|close_s] eqn:Hc; [discriminate|].
  destruct (Pandas.validate_window window_v) as [e|w] eqn:Hv; [discriminate|].
  apply validate_window_inv in Hv. destruct Hv as [-> Hpos].
  unfold Pandas.rolling_mean_of.
  destruct (Pandas.to_float64 close_s) as [x|] eqn:Hx; [|discriminate].
  destruct (py_getitem (fr_config fr) "version") as [e|version] eqn:Hver;
    [discriminate|].
  destruct (py_getitem (fr_config fr) "seed") as [e|seed] eqn:Hseed;
    [discriminate|].
  unfold write_metrics.
  destruct (report_json_ok _); [|discriminate].
  intro H. injection H as <- <-. cbn.
  exists close_s, version, seed. repeat split; auto.
Qed.

(** The facts about a completed run that the properties below rest on. *)
Lemma completes_inv (W : World) (L : Locals) :
  completes W L ->
  exists cfg df0,
    config_file W = Some (inr cfg)
    /\ py_getitem cfg "window" = inr (YInt (window L))
    /\ (0 <= window L)%Z
    /\ (exists raw_f, input_file W = Some (inr raw_f)
                      /\ read_csv W (cleaned raw_f) = inr df0)
    /\ Pandas.empty df0 = false
    /\ (exists close_s, df_getitem df0 "close" = inr close_s
                        /\ Pandas.to_float64 close_s = Some (close L))
    /\ rolling_mean L
       = Pandas.rolling_mean (Z.to_nat (window L)) (close L)
    /\ signal L = Pandas.gt_astype_int (close L) (rolling_mean L)
    /\ valid_signals L = Pandas.slice_from (window L - 1) (signal L)
    /\ df L = Pandas.assign "signal" (Pandas.Int64 (signal L))
                (Pandas.assign "rolling_mean"
                   (Pandas.Float64 (rolling_mean L)) df0)
    /\ (exists version seed,
          metrics L
          = Success version (Pandas.df_len df0) "signal_rate"
                    (py_round4 (Pandas.mean_int (valid_signals L)))
                    (elapsed_ms W) seed "success")
    /\ main W = {| reports := [metrics L]; exit := ExitCode 0 |}.
Proof.
  intros [fr Hrun]. pose proof Hrun as Hmain.
  unfold main_try, bind in Hrun.
  destruct (load_config W initial_frame) as [fr1 [e|[]]] eqn:Hcfg;
    [discriminate|].
  apply load_config_inv in Hcfg. destruct Hcfg as [cfg [Hfile ->]].
  destruct (load_dataset W (frame_with cfg)) as [fr2 [e|df0]] eqn:Hds;
    [discriminate|].
  apply load_dataset_inv in Hds.
  destruct Hds as [-> [Hempty [Hcol Hraw]]].
  apply process_inv in Hrun.
  destruct Hrun
    as (close_s & version & seed & Hw & Hpos & Hc & Hx & Hrm & Hsig & Hval
        & Hdf & Hver & Hseed & Hmet & Hfr).
  exists cfg, df0. cbn [frame_with fr_config fr_written] in *.
  repeat (split; [first [assumption | eauto]|]).
  unfold main. rewrite Hmain, Hfr. reflexivity.
Qed.

Lemma column_set_same (name : string) (s : Pandas.Series)
    (cols : list (string * Pandas.Series)) :
  Pandas.column name (Pandas.set_column name s cols) = Some s.
Proof.
  induction cols as [|[n old] cols IH]; cbn [Pandas.set_column Pandas.column].
  - rewrite String.eqb_refl. reflexivity.
  - destruct (String.eqb n name) eqn:E; cbn [Pandas.column]; rewrite E;
      [reflexivity|exact IH].
Qed.

Lemma column_set_other (name other : string) (s : Pandas.Series)
    (cols : list (string * Pandas.Series)) :
  name <> other ->
  Pandas.column name (Pandas.set_column other s cols) = Pandas.column name cols.
Proof.
  intro Hne.
  induction cols as [|[n old] cols IH]; cbn [Pandas.set_column Pandas.column].
  - destruct (String.eqb other name) eqn:E; [|reflexivity].
    apply String.eqb_eq in E. congruence.
  - destruct (String.eqb n other) eqn:E; cbn [Pandas.column].
    + apply String.eqb_eq in E. subst n.
      destruct (String.eqb other name) eqn:E'; [|reflexivity].
      apply String.eqb_eq in E'. congruence.
    + destruct (String.eqb n name); [reflexivity|exact IH].
Qed.



(* ===================================================================== *)
(** ** The worked example: close 1 to 5, window 3 *)
(* ===================================================================== *)

(** C6, as stated, fails: on close 1 to 5 with a window of 3 the rolling
    means at positions 2, 3, 4 are 2, 3, 4, and the signal at position 2 is
    1, since 3 > 2: the signals there are not 0, 1, 1. *)
Lemma example_signals_are_not_0_1_1 :
  completes Demo.world_1_to_5 (Demo.locals_of Demo.world_1_to_5)
  /\ close (Demo.locals_of Demo.world_1_to_5)
     = Demo.closes_of [1; 2; 3; 4; 5]%Z
  /\ window (Demo.locals_of Demo.world_1_to_5) = 3%Z
  /\ Pandas.slice 2 5 (rolling_mean (Demo.locals_of Demo.world_1_to_5))
     = [Fin 2; Fin 3; Fin 4]
  /\ Pandas.slice 2 5 (signal (Demo.locals_of Demo.world_1_to_5))
     <> [0; 1; 1]%Z.
Proof.
  split; [eexists; vm_compute; reflexivity|].
  split; [reflexivity|]. split; [reflexivity|]. split; [reflexivity|].
  vm_compute. discriminate.
Qed.

(** C6, amended: in every completed run on close 1 to 5 with a window of
    3, the rolling means at positions 2, 3, 4 are 2, 3, 4, the signals there
    are 1, 1, 1, and the reported value is the rounded mean of the signals
    at positions 2, 3, 4, which is 1. *)
Theorem example_1_to_5_window_3 (W : World) (L : Locals) :
  completes W L ->
  window L = 3%Z ->
  close L = Demo.closes_of [1; 2; 3; 4; 5]%Z ->
  Pandas.slice 2 5 (rolling_mean L) = [Fin 2; Fin 3; Fin 4]
  /\ Pandas.slice 2 5 (signal L) = [1; 1; 1]%Z
  /\ valid_signals L = Pandas.slice 2 5 (signal L)
  /\ report_value (metrics L)
     = Some (py_round4 (Pandas.mean_int (Pandas.slice 2 5 (signal L))))
  /\ report_value (metrics L) = Some (Fin 1)
  /\ main W = {| reports := [metrics L]; exit := ExitCode 0 |}.
Proof.
  intros Hrun Hw Hclose.
  destruct (completes_inv W L Hrun)
    as (cfg & df0 & _ & _ & _ & _ & _ & _ & Hrm & Hsig & Hval & _
        & (version & seed & Hmet) & Hmain).
  rewrite Hw, Hclose in Hrm.
  assert (Hrm' : rolling_mean L = [NaN; NaN; Fin 2; Fin 3; Fin 4])
    by (rewrite Hrm; reflexivity).
  rewrite Hrm', Hclose in Hsig.
  assert (Hsig' : signal L = [0; 0; 1; 1; 1]%Z)
    by (rewrite Hsig; reflexivity).
  rewrite Hw, Hsig' in Hval.
  assert (Hval' : valid_signals L = [1; 1; 1]%Z)
    by (rewrite Hval; reflexivity).
  assert (Hvalue : report_value (metrics L)
                   = Some (py_round4 (Pandas.mean_int (valid_signals L))))
    by (rewrite Hmet; reflexivity).
  rewrite Hvalue, Hrm', Hsig', Hval'.
  repeat split; try reflexivity. exact Hmain.
Qed.

Lemma example_1_to_5_window_3_witness :
  report_value (metrics (Demo.locals_of Demo.world_1_to_5)) = Some (Fin 1).
Proof.
  apply (example_1_to_5_window_3 Demo.world_1_to_5
           (Demo.locals_of Demo.world_1_to_5)).
  - eexists. vm_compute. reflexivity.
  - reflexivity.
  - reflexivity.
Defined.

(* ===================================================================== *)
(** ** The aggregate *)
(* ===================================================================== *)

Lemma gt_astype_int_bits (a b : list float) :
  Forall is_bit (Pandas.gt_astype_int a b).
Proof.
  unfold Pandas.gt_astype_int. apply Forall_map, Forall_forall.
  intros ab _. destruct (float_gt (fst ab) (snd ab)); [right|left]; reflexivity.
Qed.

Lemma Forall_skipn_bits (n : nat) (l : list Z) :
  Forall is_bit l -> Forall is_bit (skipn n l).
Proof.
  revert l. induction n as [|n IH]; intros l H; [exact H|].
  destruct l as [|z l]; [exact H|]. cbn [skipn]. apply IH.
  inversion H; assumption.
Qed.

Lemma slice_from_bits (start : Z) (l : list Z) :
  Forall is_bit l -> Forall is_bit (Pandas.slice_from start l).
Proof.
  intro H. unfold Pandas.slice_from.
  destruct (0 <=? start)%Z; apply Forall_skipn_bits; exact H.
Qed.

Lemma Zsum_bits (l : list Z) :
  Forall is_bit l -> (0 <= Pandas.Zsum l <= Z.of_nat (List.length l))%Z.
Proof.
  induction 1 as [|z l [Hz|Hz] _ IH]; cbn [Pandas.Zsum fold_right List.length].
  - lia.
  - fold (Pandas.Zsum l). lia.
  - fold (Pandas.Zsum l). lia.
Qed.

Lemma ratio_in_unit_interval (s n : Z) :
  (0 <= s <= n)%Z -> (0 < n)%Z ->
  (0 <= inject_Z s / inject_Z n)%Q /\ (inject_Z s / inject_Z n <= 1)%Q.
Proof.
  intros [Hs Hn] Hpos.
  assert (Hq : (0 < inject_Z n)%Q)
    by (change 0%Q with (inject_Z 0); rewrite <- Zlt_Qlt; exact Hpos).
  split.
  - apply Qle_shift_div_l; [exact Hq|]. rewrite Qmult_0_l.
    change 0%Q with (inject_Z 0). rewrite <- Zle_Qle. exact Hs.
  - apply Qle_shift_div_r; [exact Hq|]. rewrite Qmult_1_l.
    rewrite <- Zle_Qle. exact Hn.
Qed.

(** The mean of a non-empty series of 0/1 values lies between 0 and 1. *)
Lemma mean_int_bits (l : list Z) :
  Forall is_bit l -> l <> [] ->
  exists q, Pandas.mean_int l = Fin q /\ (0 <= q)%Q /\ (q <= 1)%Q.
Proof.
  intros Hbits Hne. destruct l as [|z l]; [contradiction|].
  unfold Pandas.mean_int. eexists. split; [reflexivity|].
  rewrite Qred_correct. apply ratio_in_unit_interval.
  - apply Zsum_bits. exact Hbits.
  - cbn [List.length]. lia.
Qed.

(** Rounding to an integer stays within integer bounds. *)
Lemma round_half_even_bounds (q : Q) (a b : Z) :
  (inject_Z a <= q)%Q -> (q <= inject_Z b)%Q ->
  (a <= round_half_even q <= b)%Z.
Proof.
  unfold Qle, round_half_even. destruct q as [n d]. cbn [Qnum Qden inject_Z].
  intros Ha Hb. rewrite Z.mul_1_r in Ha, Hb.
  pose proof (Pos2Z.is_pos d) as Hd.
  pose proof (Z.div_mod n (Z.pos d) ltac:(lia)) as Hdm.
  pose proof (Z.mod_pos_bound n (Z.pos d) Hd) as Hm.
  assert (Hlo : (a <= n / Z.pos d)%Z)
    by (apply Z.div_le_lower_bound; lia).
  assert (Hhi : (n / Z.pos d <= b)%Z)
    by (apply Z.div_le_upper_bound; lia).
  assert (Hup : (0 < n mod Z.pos d -> n / Z.pos d + 1 <= b)%Z).
  { intro Hr. rewrite (Z.mul_comm b) in Hb.
    assert (n / Z.pos d < b)%Z; [|lia].
    apply (Z.mul_lt_mono_pos_l (Z.pos d)); lia. }
  destruct (2 * (n mod Z.pos d) <? Z.pos d)%Z eqn:E1; [lia|].
  apply Z.ltb_ge in E1.
  destruct (Z.pos d <? 2 * (n mod Z.pos d))%Z; [lia|].
  destruct (Z.even (n / Z.pos d)); lia.
Qed.

Lemma py_round4_unit_interval (q : Q) :
  (0 <= q)%Q -> (q <= 1)%Q ->
  exists r, py_round4 (Fin q) = Fin r /\ (0 <= r)%Q /\ (r <= 1)%Q.
Proof.
  intros H0 H1. unfold py_round4. eexists. split; [reflexivity|].
  rewrite Qred_correct.
  assert (Hb : (0 <= round_half_even (q * 10000) <= 10000)%Z).
  { apply round_half_even_bounds.
    - change (inject_Z 0) with (0 * 10000)%Q.
      apply Qmult_le_compat_r; [exact H0|discriminate].
    - change (inject_Z 10000) with (1 * 10000)%Q.
      apply Qmult_le_compat_r; [exact H1|discriminate]. }
  set (m := round_half_even (q * 10000)) in *.
  change 10000%Q with (inject_Z 10000).
  apply ratio_in_unit_interval; lia.
Qed.

(** C7: in every run that ends with a success report and whose aggregate
    slice is not empty, the reported value lies in the closed interval from
    0 to 1. *)
Theorem value_in_unit_interval (W : World) (L : Locals) :
  completes W L ->
  valid_signals L <> [] ->
  exists q,
    report_value (metrics L) = Some (Fin q)
    /\ py_round4 (Pandas.mean_int (valid_signals L)) = Fin q
    /\ (0 <= q)%Q /\ (q <= 1)%Q
    /\ main W = {| reports := [metrics L]; exit := ExitCode 0 |}.
Proof.
  intros Hrun Hne.
  destruct (completes_inv W L Hrun)
    as (cfg & df0 & _ & _ & _ & _ & _ & _ & _ & Hsig & Hval & _
        & (version & seed & Hmet) & Hmain).
  assert (Hbits : Forall is_bit (valid_signals L)).
  { rewrite Hval. apply slice_from_bits. rewrite Hsig.
    apply gt_astype_int_bits. }
  destruct (mean_int_bits _ Hbits Hne) as (m & Hm & Hm0 & Hm1).
  destruct (py_round4_unit_interval m Hm0 Hm1) as (r & Hr & Hr0 & Hr1).
  exists r. split; [rewrite Hmet; cbn [report_value]; rewrite Hm, Hr|];
    repeat split; try assumption. rewrite Hm. exact Hr.
Qed.

Lemma value_in_unit_interval_witness :
  exists q,
    report_value (metrics (Demo.locals_of Demo.world_low_start))
    = Some (Fin q)
    /\ py_round4 (Pandas.mean_int
                    (valid_signals (Demo.locals_of Demo.world_low_start)))
       = Fin q
    /\ (0 <= q)%Q /\ (q <= 1)%Q
    /\ main Demo.world_low_start
       = {| reports := [metrics (Demo.locals_of Demo.world_low_start)];
            exit := ExitCode 0 |}.
Proof.
  apply (value_in_unit_interval Demo.world_low_start
           (Demo.locals_of Demo.world_low_start)).
  - eexists. vm_compute. reflexivity.
  - vm_compute. discriminate.
Defined.

Lemma well_formed_column (d : Pandas.DataFrame) (name : string)
    (s : Pandas.Series) :
  Pandas.well_formed d = true ->
  Pandas.column name (Pandas.df_columns d) = Some s ->
  Pandas.series_len s = Pandas.df_len d.
Proof.
  unfold Pandas.well_formed. generalize (Pandas.df_len d). intro n.
  induction (Pandas.df_columns d) as [|[k c] cols IH];
    cbn [forallb Pandas.column snd]; [discriminate|].
  intro H. apply andb_prop in H. destruct H as [Hc Hrest].
  destruct (String.eqb k name).
  - intro E. injection E as <-. apply Nat.eqb_eq. exact Hc.
  - apply IH. exact Hrest.
Qed.

Lemma completes_signal_column (W : World) (L : Locals) :
  completes W L ->
  Pandas.column "signal" (Pandas.df_columns (df L))
  = Some (Pandas.Int64 (signal L)).
Proof.
  intro Hrun.
  destruct (completes_inv W L Hrun)
    as (cfg & df0 & _ & _ & _ & _ & _ & _ & _ & _ & _ & Hdf & _).
  rewrite Hdf. apply column_set_same.
Qed.




(* ===================================================================== *)
(** ** A window of 1 *)
(* ===================================================================== *)

Lemma float_gt_of_eq (c m : float) : float_eq m c -> float_gt c m = false.
Proof.
  destruct c as [|x], m as [|y]; cbn; try reflexivity; try contradiction.
  intro H. symmetry in H. apply Qeq_alt in H. rewrite H. reflexivity.
Qed.

Lemma window_mean_single (v : float) :
  float_eq (Pandas.window_mean 1 [v]) v.
Proof.
  destruct v as [|q]; [exact I|].
  cbn [Pandas.window_mean Pandas.observations List.length Nat.leb Nat.ltb
       andb float_eq].
  rewrite Qred_correct. unfold Pandas.Qmean, Pandas.Qsum.
  cbn [fold_right List.length]. change (inject_Z (Z.of_nat 1)) with 1%Q.
  field.
Qed.

Lemma Zsum_zeros (l : list Z) :
  Forall (fun z => z = 0%Z) l -> Pandas.Zsum l = 0%Z.
Proof.
  induction 1 as [|z l Hz _ IH]; [reflexivity|].
  cbn [Pandas.Zsum fold_right]. fold (Pandas.Zsum l). lia.
Qed.

Lemma mean_int_zeros (l : list Z) :
  Forall (fun z => z = 0%Z) l -> l <> [] -> Pandas.mean_int l = Fin 0.
Proof.
  intros Hz Hne. destruct l as [|z l]; [contradiction|].
  unfold Pandas.mean_int. rewrite (Zsum_zeros _ Hz). reflexivity.
Qed.

(** C9: in every completed run on a non-empty dataset with a window of
    1, there is no warm-up (the aggregate slice is the whole signal), the
    rolling mean equals the close value at every position, every signal is
    0, and the reported value is 0. *)
Theorem window_one_gives_zero (W : World) (L : Locals) :
  completes W L ->
  window L = 1%Z ->
  close L <> [] ->
  valid_signals L = signal L
  /\ List.length (signal L) = List.length (close L)
  /\ (forall i, i < List.length (close L) ->
                float_eq (nth i (rolling_mean L) NaN) (nth i (close L) NaN))
  /\ Forall (fun z => z = 0%Z) (signal L)
  /\ report_value (metrics L) = Some (Fin 0)
  /\ main W = {| reports := [metrics L]; exit := ExitCode 0 |}.
Proof.
  intros Hrun Hw Hne.
  destruct (completes_inv W L Hrun)
    as (cfg & df0 & _ & _ & _ & _ & _ & _ & Hrm & Hsig & Hval & _
        & (version & seed & Hmet) & Hmain).
  rewrite Hw in Hrm, Hval. change (Z.to_nat 1) with 1 in Hrm.
  assert (Hlen : List.length (rolling_mean L) = List.length (close L))
    by (rewrite Hrm; apply length_rolling_mean).
  assert (Hslen : List.length (signal L) = List.length (close L))
    by (rewrite Hsig; apply length_gt_astype_int; symmetry; exact Hlen).
  assert (Hmean : forall i, i < List.length (close L) ->
            float_eq (nth i (rolling_mean L) NaN) (nth i (close L) NaN)).
  { intros i Hi. rewrite Hrm, nth_rolling_mean by exact Hi.
    rewrite window_at_full by lia.
    unfold SpecSignal.last_values. cbn [seq map].
    replace (i + 1 - 1) with i by lia. apply window_mean_single. }
  assert (Hzero : Forall (fun z => z = 0%Z) (signal L)).
  { apply Forall_nth. intros i d Hi.
    rewrite (nth_indep _ d 0%Z Hi), Hsig.
    rewrite nth_gt_astype_int by (symmetry; exact Hlen).
    rewrite float_gt_of_eq; [reflexivity|].
    apply Hmean. rewrite <- Hslen. exact Hi. }
  assert (Hvalid : valid_signals L = signal L) by (rewrite Hval; reflexivity).
  split; [exact Hvalid|]. split; [exact Hslen|]. split; [exact Hmean|].
  split; [exact Hzero|]. split; [|exact Hmain].
  rewrite Hmet. cbn [report_value]. rewrite Hvalid, mean_int_zeros.
  - reflexivity.
  - exact Hzero.
  - intro E. apply Hne. apply length_zero_iff_nil.
    rewrite <- Hslen, E. reflexivity.
Qed.

Lemma window_one_gives_zero_witness :
  report_value (metrics (Demo.locals_of Demo.world_window_1)) = Some (Fin 0).
Proof.
  apply (window_one_gives_zero Demo.world_window_1
           (Demo.locals_of Demo.world_window_1)).
  - eexists. vm_compute. reflexivity.
  - reflexivity.
  - vm_compute. discriminate.
Defined.

(* ===================================================================== *)
(** ** Warm-up rows and the aggregate *)
(* ===================================================================== *)






(* ===================================================================== *)
(** ** The error path *)
(* ===================================================================== *)

Lemma load_config_written (W : World) (fr : Frame) (r : exn + unit) :
  load_config W initial_frame = (fr, r) -> fr_written fr = [].
Proof.
  destruct (config_file W) as [[e|cfg]|] eqn:Hfile.
  - unfold load_config. rewrite Hfile. unfold bind, call. frame_kept.
  - rewrite (load_config_loaded W cfg _ Hfile).
    destruct (validate_keys required_keys _) as [fr0 [e|u]] eqn:Hv;
      apply validate_keys_frame in Hv; subst fr0.
    + frame_kept.
    + destruct (py_getitem _ "seed"); frame_kept.
  - unfold load_config. rewrite Hfile. unfold raise. frame_kept.
Qed.

Lemma load_dataset_frame (W : World) (fr fr' : Frame)
    (r : exn + Pandas.DataFrame) :
  load_dataset W fr = (fr', r) -> fr' = fr.
Proof.
  unfold load_dataset, bind, call, raise, validate_dataset, ret.
  destruct (input_file W) as [[e|raw_f]|]; try frame_kept.
  destruct (read_csv W (cleaned raw_f)) as [e|d0]; [frame_kept|].
  destruct (Pandas.empty d0); [frame_kept|].
  destruct (negb (Pandas.has_column "close" d0)); frame_kept.
Qed.

Lemma process_failure_frame (W : World) (df0 : Pandas.DataFrame)
    (fr fr' : Frame) (e : exn) :
  process W df0 fr = (fr', inl e) -> fr' = fr.
Proof.
  unfold process, bind, get_config, call, ret, write_metrics.
  destruct (py_getitem (fr_config fr) "window") as [e0|window_v];
    [frame_kept|].
  destruct (df_getitem df0 "close") as [e0|close_s]; [frame_kept|].
  destruct (Pandas.validate_window window_v) as [e0|w]; [frame_kept|].
  destruct (Pandas.rolling_mean_of w close_s) as [e0|rm]; [frame_kept|].
  destruct (py_getitem (fr_config fr) "version") as [e0|version];
    [frame_kept|].
  destruct (py_getitem (fr_config fr) "seed") as [e0|seed]; [frame_kept|].
  destruct (report_json_ok _); [discriminate|]. frame_kept.
Qed.

(** When the [try] body raises, nothing has been written yet. *)
Lemma main_try_failure_written (W : World) (fr : Frame) (e : exn) :
  main_try W initial_frame = (fr, inl e) -> fr_written fr = [].
Proof.
  unfold main_try, bind.
  destruct (load_config W initial_frame) as [fr1 [e1|u]] eqn:Hcfg;
    pose proof (load_config_written W _ _ Hcfg) as Hw1.
  - intro H. injection H as <- _. exact Hw1.
  - destruct (load_dataset W fr1) as [fr2 [e2|df0]] eqn:Hds;
      apply load_dataset_frame in Hds; subst fr2.
    + intro H. injection H as <- _. exact Hw1.
    + intro H. apply process_failure_frame in H. subst fr. exact Hw1.
Qed.

(** The part of C8 that the code delivers: when a stage raises while
    [config] is a mapping whose version, if any, can be serialised, exactly
    one report is written, an error report with that version (or
    [unknown]) and the message of the exception, and the exit code is 1. *)
Lemma error_report_when_config_is_mapping
    (W : World) (fr : Frame) (e : exn) (entries : list (string * yaml)) :
  main_try W initial_frame = (fr, inl e) ->
  fr_config fr = YMap entries ->
  json_ok (match dict_lookup "version" entries with
           | Some v => v
           | None => YStr "unknown"
           end) = true ->
  main W = {| reports := [Error (match dict_lookup "version" entries with
                                 | Some v => v
                                 | None => YStr "unknown"
                                 end) "error" (exn_msg e)];
              exit := ExitCode 1 |}.
Proof.
  intros Htry Hcfg Hjson.
  rewrite (main_on_exception W fr e Htry), Hcfg.
  rewrite (main_try_failure_written W fr e Htry).
  cbn [py_get]. destruct (dict_lookup "version" entries);
    rewrite Hjson; reflexivity.
Qed.

(** C8, failing input: when the config file is empty, [yaml.safe_load]
    returns [None]; the key check raises [TypeError], and the handler's own
    [config.get] raises [AttributeError]: the process ends on an uncaught
    exception and no report is written. *)
Theorem empty_config_file_leaves_no_report (W : World) :
  config_file W = Some (inr YNull) ->
  main_try W initial_frame
  = (frame_with YNull,
     inl (TypeError "argument of type 'NoneType' is not iterable"))
  /\ main W
     = {| reports := [];
          exit := Uncaught
                    (AttributeError
                       "'NoneType' object has no attribute 'get'") |}.
Proof.
  intro Hfile.
  assert (Htry : main_try W initial_frame
                 = (frame_with YNull,
                    inl (TypeError
                           "argument of type 'NoneType' is not iterable"))).
  { apply main_try_config_failure.
    rewrite (load_config_loaded W _ _ Hfile). reflexivity. }
  split; [exact Htry|].
  rewrite (main_on_exception W _ _ Htry). reflexivity.
Qed.

Lemma empty_config_file_leaves_no_report_witness :
  main Demo.world_empty_config
  = {| reports := [];
       exit := Uncaught
                 (AttributeError
                    "'NoneType' object has no attribute 'get'") |}.
Proof.
  apply (proj2 (empty_config_file_leaves_no_report Demo.world_empty_config
                  eq_refl)).
Defined.

(* ===================================================================== *)
(** ** Every valid input completes *)
(* ===================================================================== *)




(* ===================================================================== *)
(** ** How a run ends *)
(* ===================================================================== *)

Lemma py_get_mapping (entries : list (string * yaml)) :
  py_get (YMap entries) "version" (YStr "unknown")
  = inr (recovered_version entries).
Proof.
  unfold recovered_version. cbn [py_get].
  destruct (dict_lookup "version" entries); reflexivity.
Qed.

(** What [main] does after an exception, by whether the handler gets its
    report out. *)
Lemma main_after_exception (W : World) (fr : Frame) (e : exn) :
  main_try W initial_frame = (fr, inl e) ->
  (handler_can_report (fr_config fr) = true ->
   exists entries,
     fr_config fr = YMap entries
     /\ main W = error_outcome (recovered_version entries) (exn_msg e))
  /\ (handler_can_report (fr_config fr) = false ->
      exists e', main W = {| reports := []; exit := Uncaught e' |}).
Proof.
  intro Htry. rewrite (main_on_exception W fr e Htry).
  rewrite (main_try_failure_written W fr e Htry).
  destruct (fr_config fr) as [| | | | | | |entries];
    try (split; [discriminate|intros _; eexists; reflexivity]).
  rewrite py_get_mapping. cbn [handler_can_report]. split; intro Hj.
  - exists entries. rewrite Hj. split; reflexivity.
  - rewrite Hj. eexists. reflexivity.
Qed.

(** X1.  Every run ends in one of three ways: exit code 0 after exactly one
    success report; exit code 1 after exactly one error report; or an
    uncaught exception with no report at all.  No run writes two reports, and
    no report contradicts the exit code. *)
Theorem run_ends_in_one_of_three_ways (W : World) :
  (exists version rows value seed,
      main W = success_outcome
                 (Success version rows "signal_rate" value (elapsed_ms W)
                          seed "success"))
  \/ (exists version message, main W = error_outcome version message)
  \/ (exists e, main W = {| reports := []; exit := Uncaught e |}).
Proof.
  destruct (main_try W initial_frame) as [fr [e|L]] eqn:Htry.
  - destruct (main_after_exception W fr e Htry) as [Hyes Hno].
    destruct (handler_can_report (fr_config fr)).
    + destruct (Hyes eq_refl) as (entries & _ & Hmain).
      right. left. eauto.
    + right. right. exact (Hno eq_refl).
  - left.
    destruct (completes_inv W L (ex_intro _ fr Htry))
      as (cfg & df0 & _ & _ & _ & _ & _ & _ & _ & _ & _ & _
          & (version & seed & Hmet) & Hmain).
    rewrite Hmain, Hmet. unfold success_outcome. eauto.
Qed.


(* ===================================================================== *)
(** ** Failures of the config stage *)
(* ===================================================================== *)

Lemma py_getitem_not_mapping (v : yaml) (key : string) :
  is_mapping v = false -> exists e, py_getitem v key = inl e.
Proof.
  destruct v; try discriminate; intros _; eexists; reflexivity.
Qed.

(** A loaded value that is not a mapping never gets through the config
    stage: the key check raises, or it passes and [config['seed']] raises. *)
Lemma load_config_not_mapping (W : World) (v : yaml) :
  config_file W = Some (inr v) ->
  is_mapping v = false ->
  exists e, load_config W initial_frame = (frame_with v, inl e).
Proof.
  intros Hfile Hv. rewrite (load_config_loaded W v _ Hfile).
  destruct (validate_keys required_keys _) as [fr0 [e|u]] eqn:Hk;
    apply validate_keys_frame in Hk; subst fr0.
  - exists e. reflexivity.
  - cbn [fr_config].
    destruct (py_getitem_not_mapping v "seed" Hv) as [e He].
    rewrite He. exists e. reflexivity.
Qed.

(** X3.  Whenever the config file loads as anything but a mapping (nothing,
    a scalar, a string, a list), the run writes no report: the handler's
    [config.get] raises [AttributeError] and the process ends on it. *)
Theorem non_mapping_config_leaves_no_report (W : World) (v : yaml) :
  config_file W = Some (inr v) ->
  is_mapping v = false ->
  main W
  = {| reports := [];
       exit := Uncaught
                 (AttributeError
                    ("'" ++ type_name v
                     ++ "' object has no attribute 'get'")) |}.
Proof.
  intros Hfile Hv.
  destruct (load_config_not_mapping W v Hfile Hv) as [e Hcfg].
  rewrite (main_on_exception W _ e (main_try_config_failure W _ e Hcfg)).
  cbn [frame_with fr_config fr_written].
  destruct v; try discriminate Hv; reflexivity.
Qed.

(** A YAML list of the three key names passes the key check and still
    leaves no report. *)
Lemma non_mapping_config_leaves_no_report_witness :
  main Edge.world_list_config
  = {| reports := [];
       exit := Uncaught
                 (AttributeError "'list' object has no attribute 'get'") |}.
Proof.
  apply (non_mapping_config_leaves_no_report Edge.world_list_config
           (YList [YStr "seed"; YStr "window"; YStr "version"])).
  - reflexivity.
  - reflexivity.
Defined.

(** X4.  When the config never loads, because the file is missing or because
    reading or parsing it raises, [config] is still the empty dict: the run
    writes one error report with version [unknown] and the message of the
    failure, [Config file not found: <path>] for a missing file, and exits
    with code 1. *)
Theorem unloaded_config_reports_unknown (W : World) :
  match config_file W with
  | None =>
      main W = error_outcome (YStr "unknown")
                 ("Config file not found: " ++ arg_config (args W))
  | Some (inl e) => main W = error_outcome (YStr "unknown") (exn_msg e)
  | Some (inr _) => True
  end.
Proof.
  destruct (config_file W) as [[e|v]|] eqn:Hfile; [| exact I |].
  - assert (Hcfg : load_config W initial_frame = (initial_frame, inl e))
      by (unfold load_config; rewrite Hfile; reflexivity).
    rewrite (main_on_exception W _ e (main_try_config_failure W _ e Hcfg)).
    reflexivity.
  - assert (Hcfg : load_config W initial_frame
                   = (initial_frame,
                      inl (FileNotFoundError
                             ("Config file not found: "
                              ++ arg_config (args W)))))
      by (unfold load_config; rewrite Hfile; reflexivity).
    rewrite (main_on_exception W _ _ (main_try_config_failure W _ _ Hcfg)).
    reflexivity.
Qed.

(** X5.  When the config stage fails, the dataset is never looked at: two
    worlds with the same arguments, config file and seeding end the same
    way, whatever their data files and parsers are. *)
Theorem config_failure_ignores_dataset (W1 W2 : World) (fr : Frame)
    (e : exn) :
  args W1 = args W2 ->
  config_file W1 = config_file W2 ->
  np_random_seed W1 = np_random_seed W2 ->
  load_config W1 initial_frame = (fr, inl e) ->
  main W1 = main W2.
Proof.
  intros Hargs Hfile Hseed Hcfg.
  assert (Hcfg2 : load_config W2 initial_frame = (fr, inl e)).
  { rewrite <- Hcfg. unfold load_config.
    rewrite Hargs, Hfile, Hseed. reflexivity. }
  rewrite (main_on_exception W1 _ e (main_try_config_failure W1 _ e Hcfg)).
  rewrite (main_on_exception W2 _ e (main_try_config_failure W2 _ e Hcfg2)).
  reflexivity.
Qed.

(** A refused seed gives the same error report with and without the data
    file. *)
Lemma config_failure_ignores_dataset_witness :
  main Edge.world_bad_seed = main Edge.world_bad_seed_no_data.
Proof.
  apply (config_failure_ignores_dataset
           Edge.world_bad_seed Edge.world_bad_seed_no_data
           (frame_with (YMap [("seed", YInt (-1)); ("window", YInt 2);
                              ("version", YStr "v1")]))
           (ValueError "Seed must be between 0 and 2**32 - 1")).
  - reflexivity.
  - reflexivity.
  - reflexivity.
  - reflexivity.
Defined.

Lemma unloaded_config_reports_unknown_witness :
  main Edge.world_no_config
  = error_outcome (YStr "unknown") "Config file not found: config.yaml".
Proof. exact (unloaded_config_reports_unknown Edge.world_no_config). Defined.

(* ===================================================================== *)
(** ** Failures after the config stage *)
(* ===================================================================== *)

(** An exception raised while [config] is a mapping with a version that
    can be serialised is reported with that version. *)
Lemma reported_failure (W : World) (entries : list (string * yaml))
    (e : exn) :
  main_try W initial_frame = (frame_with (YMap entries), inl e) ->
  json_ok (recovered_version entries) = true ->
  main W = error_outcome (recovered_version entries) (exn_msg e).
Proof.
  intros Htry Hj. rewrite (main_on_exception W _ e Htry).
  cbn [frame_with fr_config fr_written]. rewrite py_get_mapping, Hj.
  reflexivity.
Qed.

Lemma main_try_dataset_failure (W : World) (fr : Frame) (e : exn) :
  load_config W initial_frame = (fr, inr tt) ->
  load_dataset W fr = (fr, inl e) ->
  main_try W initial_frame = (fr, inl e).
Proof.
  intros Hcfg Hds. unfold main_try, bind. rewrite Hcfg, Hds. reflexivity.
Qed.

Lemma main_try_process_failure (W : World) (fr : Frame)
    (d : Pandas.DataFrame) (e : exn) :
  load_config W initial_frame = (fr, inr tt) ->
  load_dataset W fr = (fr, inr d) ->
  process W d fr = (fr, inl e) ->
  main_try W initial_frame = (fr, inl e).
Proof.
  intros Hcfg Hds Hp. unfold main_try, bind. rewrite Hcfg, Hds. exact Hp.
Qed.

(** X6.  Once the config stage has passed with a version that can be
    serialised, every failure of the dataset stage ends in one error report
    with the config's version and exit code 1: a missing file gives
    [Input file not found: <path>], a frame with no rows gives
    [Input CSV is empty] whether or not it has a [close] column, and a
    frame with rows and no [close] column gives
    [Missing required column: 'close']. *)
Theorem dataset_failures_are_reported
    (W : World) (entries : list (string * yaml)) :
  load_config W initial_frame = (frame_with (YMap entries), inr tt) ->
  json_ok (recovered_version entries) = true ->
  match input_file W with
  | None =>
      main W = error_outcome (recovered_version entries)
                 ("Input file not found: " ++ arg_input (args W))
  | Some (inl e) =>
      main W = error_outcome (recovered_version entries) (exn_msg e)
  | Some (inr raw_f) =>
      match read_csv W (cleaned raw_f) with
      | inl e =>
          main W = error_outcome (recovered_version entries) (exn_msg e)
      | inr d =>
          if Pandas.empty d
          then main W = error_outcome (recovered_version entries)
                          "Input CSV is empty"
          else if Pandas.has_column "close" d then True
               else main W = error_outcome (recovered_version entries)
                               "Missing required column: 'close'"
      end
  end.
Proof.
  intros Hcfg Hj.
  assert (Hfail : forall e,
             load_dataset W (frame_with (YMap entries))
             = (frame_with (YMap entries), inl e) ->
             main W = error_outcome (recovered_version entries) (exn_msg e)).
  { intros e Hds. apply reported_failure; [|exact Hj].
    apply main_try_dataset_failure; assumption. }
  unfold load_dataset, bind, call, raise, validate_dataset in Hfail.
  destruct (input_file W) as [[e|raw_f]|].
  - apply (Hfail e). reflexivity.
  - destruct (read_csv W (cleaned raw_f)) as [e|d].
    + apply (Hfail e). reflexivity.
    + destruct (Pandas.empty d).
      * apply (Hfail (ValueError "Input CSV is empty")). reflexivity.
      * destruct (Pandas.has_column "close" d); [exact I|].
        apply (Hfail (ValueError "Missing required column: 'close'")).
        reflexivity.
  - apply (Hfail (FileNotFoundError
                    ("Input file not found: " ++ arg_input (args W)))).
    reflexivity.
Qed.

(** A header without rows and without [close]: the emptiness is what is
    reported. *)
Lemma dataset_failures_are_reported_witness :
  main Edge.world_no_rows = error_outcome (YStr "v1") "Input CSV is empty".
Proof.
  exact (dataset_failures_are_reported Edge.world_no_rows
           [("seed", YInt 42); ("window", YInt 2); ("version", YStr "v1")]
           eq_refl eq_refl).
Defined.

Lemma has_column_column (name : string) (d : Pandas.DataFrame) :
  Pandas.has_column name d = true ->
  exists s, Pandas.column name (Pandas.df_columns d) = Some s.
Proof.
  unfold Pandas.has_column.
  induction (Pandas.df_columns d) as [|[k c] cols IH];
    cbn [Pandas.column existsb fst]; [discriminate|].
  destruct (String.eqb k name); [intros _; exists c; reflexivity|exact IH].
Qed.

Lemma validate_window_rejects (window_v : yaml) :
  (forall z, window_v = YInt z -> (z < 0)%Z) ->
  exists e, Pandas.validate_window window_v = inl e.
Proof.
  intro H. destruct window_v; try (eexists; reflexivity).
  cbn [Pandas.validate_window].
  assert (E : (0 <=? z)%Z = false) by (apply Z.leb_gt; apply H; reflexivity).
  rewrite E. eexists. reflexivity.
Qed.

(** X7.  A window that is not an integer, or is a negative integer, gets
    through the config stage and fails the run at the rolling step: with a
    valid dataset, the run ends in one error report with the config's
    version and exit code 1, whatever the [close] column holds. *)
Theorem bad_window_fails_at_rolling
    (W : World) (entries : list (string * yaml)) (window_v : yaml)
    (d : Pandas.DataFrame) :
  load_config W initial_frame = (frame_with (YMap entries), inr tt) ->
  json_ok (recovered_version entries) = true ->
  load_dataset W (frame_with (YMap entries))
  = (frame_with (YMap entries), inr d) ->
  dict_lookup "window" entries = Some window_v ->
  (forall z, window_v = YInt z -> (z < 0)%Z) ->
  exists e,
    Pandas.validate_window window_v = inl e
    /\ main W = error_outcome (recovered_version entries) (exn_msg e).
Proof.
  intros Hcfg Hj Hds Hwin Hbad.
  destruct (validate_window_rejects window_v Hbad) as [e He].
  exists e. split; [exact He|].
  apply reported_failure; [|exact Hj].
  apply (main_try_process_failure W _ d e Hcfg Hds).
  apply load_dataset_inv in Hds. destruct Hds as (_ & _ & Hcol & _).
  destruct (has_column_column _ _ Hcol) as [s Hs].
  unfold process, bind, get_config, call, df_getitem.
  cbn [frame_with fr_config py_getitem]. rewrite Hwin, Hs, He. reflexivity.
Qed.

Lemma bad_window_fails_at_rolling_witness :
  exists e,
    Pandas.validate_window (YInt (-3)) = inl e
    /\ main Edge.world_negative_window
       = error_outcome (YStr "v1") (exn_msg e).
Proof.
  apply (bad_window_fails_at_rolling Edge.world_negative_window
           [("seed", YInt 42); ("window", YInt (-3)); ("version", YStr "v1")]
           (YInt (-3)) (Demo.frame_of [1; 2; 3]%Z)).
  - reflexivity.
  - reflexivity.
  - reflexivity.
  - reflexivity.
  - intros z Hz. injection Hz as <-. reflexivity.
Defined.

(** X8.  A [close] column that is not numeric passes the dataset stage and
    fails the run at the rolling mean: with a valid config and window, the
    run ends in one error report with the config's version and exit code
    1. *)
Theorem text_close_fails_at_mean
    (W : World) (entries : list (string * yaml)) (w : Z)
    (d : Pandas.DataFrame) (values : list string) :
  load_config W initial_frame = (frame_with (YMap entries), inr tt) ->
  json_ok (recovered_version entries) = true ->
  load_dataset W (frame_with (YMap entries))
  = (frame_with (YMap entries), inr d) ->
  dict_lookup "window" entries = Some (YInt w) ->
  (0 <= w)%Z ->
  Pandas.column "close" (Pandas.df_columns d) = Some (Pandas.Object values) ->
  exists e,
    Pandas.rolling_mean_of w (Pandas.Object values) = inl e
    /\ main W = error_outcome (recovered_version entries) (exn_msg e).
Proof.
  intros Hcfg Hj Hds Hwin Hpos Hcol.
  eexists. split; [reflexivity|].
  apply reported_failure; [|exact Hj].
  apply (main_try_process_failure W _ d _ Hcfg Hds).
  assert (Hleb : (0 <=? w)%Z = true) by (apply Z.leb_le; exact Hpos).
  unfold process, bind, get_config, call, df_getitem.
  cbn [frame_with fr_config py_getitem]. rewrite Hwin, Hcol.
  cbn [Pandas.validate_window]. rewrite Hleb. reflexivity.
Qed.

Lemma text_close_fails_at_mean_witness :
  exists e,
    Pandas.rolling_mean_of 2 (Pandas.Object ["low"; "high"]) = inl e
    /\ main Edge.world_text_close = error_outcome (YStr "v1") (exn_msg e).
Proof.
  apply (text_close_fails_at_mean Edge.world_text_close
           [("seed", YInt 42); ("window", YInt 2); ("version", YStr "v1")]
           2 Edge.frame_text_close ["low"; "high"]).
  - reflexivity.
  - reflexivity.
  - reflexivity.
  - reflexivity.
  - lia.
  - reflexivity.
Defined.

(* ===================================================================== *)
(** ** Success *)
(* ===================================================================== *)

Lemma py_getitem_mapping_inv (cfg : yaml) (key : string) (v : yaml) :
  py_getitem cfg key = inr v ->
  exists entries, cfg = YMap entries /\ dict_lookup key entries = Some v.
Proof.
  destruct cfg as [| | | | | | |entries]; try discriminate.
  cbn [py_getitem]. destruct (dict_lookup key entries) as [v0|] eqn:E;
    [|discriminate].
  intro H. injection H as <-. exists entries. split; [reflexivity|exact E].
Qed.

(** The report of a completed [try] body is one [json.dump] accepts. *)
Lemma process_report_json_ok (W : World) (d : Pandas.DataFrame)
    (fr fr' : Frame) (L : Locals) :
  process W d fr = (fr', inr L) -> report_json_ok (metrics L) = true.
Proof.
  unfold process, bind, get_config, call, ret, write_metrics.
  destruct (py_getitem (fr_config fr) "window") as [e|window_v];
    [discriminate|].
  destruct (df_getitem d "close") as [e|close_s]; [discriminate|].
  destruct (Pandas.validate_window window_v) as [e|w]; [discriminate|].
  destruct (Pandas.rolling_mean_of w close_s) as [e|rm]; [discriminate|].
  destruct (py_getitem (fr_config fr) "version") as [e|version];
    [discriminate|].
  destruct (py_getitem (fr_config fr) "seed") as [e|seed]; [discriminate|].
  destruct (report_json_ok _) eqn:E; [|discriminate].
  intro H. injection H as _ <-. exact E.
Qed.

(** A completed run, traced back to the config and the parsed frame. *)
Lemma completes_config (W : World) (L : Locals) :
  completes W L ->
  exists entries version seed raw_f d close_s,
    config_file W = Some (inr (YMap entries))
    /\ dict_lookup "seed" entries = Some seed
    /\ dict_lookup "window" entries = Some (YInt (window L))
    /\ dict_lookup "version" entries = Some version
    /\ np_random_seed W seed = inr tt
    /\ input_file W = Some (inr raw_f)
    /\ read_csv W (cleaned raw_f) = inr d
    /\ Pandas.empty d = false
    /\ Pandas.column "close" (Pandas.df_columns d) = Some close_s
    /\ Pandas.to_float64 close_s = Some (close L)
    /\ (0 <= window L)%Z
    /\ json_ok version = true
    /\ json_ok seed = true
    /\ metrics L
       = Success version (Pandas.df_len d) "signal_rate"
                 (signal_rate (window L) (close L)) (elapsed_ms W) seed
                 "success"
    /\ df L = Pandas.assign "signal" (Pandas.Int64 (signal L))
                (Pandas.assign "rolling_mean"
                   (Pandas.Float64 (rolling_mean L)) d).
Proof.
  intros [fr Hrun]. unfold main_try, bind in Hrun.
  destruct (load_config W initial_frame) as [fr1 [e|[]]] eqn:Hcfg;
    [discriminate|].
  destruct (load_config_inv W fr1 Hcfg) as [cfg [Hfile ->]].
  rewrite (load_config_loaded W cfg _ Hfile) in Hcfg.
  destruct (validate_keys required_keys _) as [fr0 [e|u]] eqn:Hk;
    [discriminate|].
  apply validate_keys_frame in Hk. subst fr0. cbn [fr_config] in Hcfg.
  destruct (py_getitem cfg "seed") as [e|seed0] eqn:Hseed0; [discriminate|].
  injection Hcfg as Hnp.
  destruct (load_dataset W (frame_with cfg)) as [fr2 [e|d]] eqn:Hds;
    [discriminate|].
  apply load_dataset_inv in Hds.
  destruct Hds as (-> & Hempty & Hcol & raw_f & Hin & Hcsv).
  pose proof (process_report_json_ok _ _ _ _ _ Hrun) as Hjok.
  apply process_inv in Hrun.
  destruct Hrun
    as (close_s & version & seed & Hw & Hpos & Hc & Hx & Hrm & Hsig & Hval
        & Hdf & Hver & Hseed & Hmet & Hfr).
  cbn [frame_with fr_config fr_written] in *.
  destruct (py_getitem_mapping_inv _ _ _ Hw) as (entries & -> & Hwl).
  cbn [py_getitem] in Hver, Hseed, Hseed0.
  destruct (dict_lookup "version" entries) as [v1|] eqn:Hv1; [|discriminate].
  destruct (dict_lookup "seed" entries) as [s1|] eqn:Hs1; [|discriminate].
  injection Hver as <-. injection Hseed as <-. injection Hseed0 as <-.
  assert (Hjson : json_ok v1 = true /\ json_ok s1 = true)
    by (rewrite Hmet in Hjok; apply andb_prop; exact Hjok).
  unfold df_getitem in Hc.
  destruct (Pandas.column "close" (Pandas.df_columns d)) as [s|] eqn:Hcs;
    [|discriminate]. injection Hc as ->.
  destruct Hjson as [Hjv Hjs].
  exists entries, v1, s1, raw_f, d, close_s.
  split; [exact Hfile|]. split; [exact Hs1|]. split; [exact Hwl|].
  split; [exact Hv1|]. split; [exact Hnp|]. split; [exact Hin|].
  split; [exact Hcsv|]. split; [exact Hempty|]. split; [exact Hcs|].
  split; [exact Hx|]. split; [exact Hpos|]. split; [exact Hjv|].
  split; [exact Hjs|]. split; [|exact Hdf].
  rewrite Hmet. unfold signal_rate. rewrite Hval, Hsig, Hrm. reflexivity.
Qed.


(* ===================================================================== *)
(** ** The edges of the window *)
(* ===================================================================== *)

Lemma rolling_mean_0 (x : list float) :
  Forall (fun m => m = NaN) (Pandas.rolling_mean 0 x).
Proof.
  unfold Pandas.rolling_mean. apply Forall_map, Forall_forall.
  intros i _. unfold Pandas.window_at, Pandas.slice.
  replace (i + 1 - (i + 1 - 0)) with 0 by lia. reflexivity.
Qed.

Lemma gt_astype_int_nan (a b : list float) :
  Forall (fun m => m = NaN) b ->
  Forall (fun z => z = 0%Z) (Pandas.gt_astype_int a b).
Proof.
  intro Hb. unfold Pandas.gt_astype_int. apply Forall_map.
  revert a. induction Hb as [|m b Hm _ IH]; intros [|c a];
    cbn [combine]; constructor.
  - cbn [fst snd]. rewrite Hm, float_gt_nan_r. reflexivity.
  - apply IH.
Qed.

Lemma Forall_skipn_zeros (n : nat) (l : list Z) :
  Forall (fun z => z = 0%Z) l -> Forall (fun z => z = 0%Z) (skipn n l).
Proof.
  revert l. induction n as [|n IH]; intros l H; [exact H|].
  destruct l as [|z l]; [exact H|]. cbn [skipn]. apply IH.
  inversion H; assumption.
Qed.

(** X10.  A window of 0 is accepted: in every completed run with window 0 on
    a dataset with at least one close value, every rolling mean is NaN,
    every signal is 0, the aggregate slice [signal[-1:]] is the last signal
    alone, and the reported value is 0. *)
Theorem window_zero_gives_zero (W : World) (L : Locals) :
  completes W L ->
  window L = 0%Z ->
  close L <> [] ->
  Forall (fun m => m = NaN) (rolling_mean L)
  /\ Forall (fun z => z = 0%Z) (signal L)
  /\ valid_signals L = [0%Z]
  /\ report_value (metrics L) = Some (Fin 0)
  /\ main W = success_outcome (metrics L).
Proof.
  intros Hrun Hw Hne.
  destruct (completes_inv W L Hrun)
    as (cfg & df0 & _ & _ & _ & _ & _ & _ & Hrm & Hsig & Hval & _
        & (version & seed & Hmet) & Hmain).
  rewrite Hw in Hrm, Hval. change (Z.to_nat 0) with 0 in Hrm.
  assert (Hnan : Forall (fun m => m = NaN) (rolling_mean L))
    by (rewrite Hrm; apply rolling_mean_0).
  assert (Hzero : Forall (fun z => z = 0%Z) (signal L))
    by (rewrite Hsig; apply gt_astype_int_nan; exact Hnan).
  assert (Hlen : List.length (signal L) = List.length (close L)).
  { rewrite Hsig. apply length_gt_astype_int.
    rewrite Hrm, length_rolling_mean. reflexivity. }
  assert (Hlast : valid_signals L = [0%Z]).
  { rewrite Hval. unfold Pandas.slice_from.
    change (0 <=? 0 - 1)%Z with false.
    change (Z.to_nat (- (0 - 1))) with 1. cbv iota.
    pose proof (Forall_skipn_zeros (List.length (signal L) - 1) _ Hzero)
      as Hz.
    pose proof (length_skipn (List.length (signal L) - 1) (signal L)) as Hl.
    assert (Hpos : List.length (close L) <> 0)
      by (intro E; apply Hne, length_zero_iff_nil; exact E).
    destruct (skipn (List.length (signal L) - 1) (signal L)) as [|z [|z' t]];
      cbn [List.length] in Hl; try lia.
    inversion Hz as [|? ? Hz0 _]. congruence. }
  split; [exact Hnan|]. split; [exact Hzero|]. split; [exact Hlast|].
  split; [|exact Hmain].
  rewrite Hmet. cbn [report_value]. rewrite Hlast. reflexivity.
Qed.

Lemma window_zero_gives_zero_witness :
  report_value (metrics (Demo.locals_of Edge.world_window_0))
  = Some (Fin 0).
Proof.
  apply (window_zero_gives_zero Edge.world_window_0
           (Demo.locals_of Edge.world_window_0)).
  - eexists. vm_compute. reflexivity.
  - reflexivity.
  - vm_compute. discriminate.
Defined.

Lemma empty_frame_len (d : Pandas.DataFrame) :
  Pandas.empty d = false -> Pandas.df_len d <> 0.
Proof.
  unfold Pandas.empty. intros H E. rewrite E in H. discriminate H.
Qed.

(** In a completed run on a well-formed frame, the aggregate slice is
    empty exactly when the window exceeds the number of rows. *)
Lemma valid_signals_empty_iff (W : World) (L : Locals) :
  completes W L ->
  Pandas.well_formed (df L) = true ->
  valid_signals L = [] <-> (Z.of_nat (Pandas.df_len (df L)) < window L)%Z.
Proof.
  intros Hrun Hwf.
  pose proof (completes_signal_column W L Hrun) as Hcol.
  pose proof (well_formed_column _ _ _ Hwf Hcol) as Hlen.
  cbn [Pandas.series_len] in Hlen.
  destruct (completes_inv W L Hrun)
    as (cfg & df0 & _ & _ & Hpos & _ & Hempty & _ & _ & _ & Hval & Hdf & _).
  assert (Hrows : Pandas.df_len (df L) <> 0)
    by (rewrite Hdf; exact (empty_frame_len df0 Hempty)).
  rewrite Hval. unfold Pandas.slice_from.
  destruct (0 <=? window L - 1)%Z eqn:E.
  - apply Z.leb_le in E. split.
    + intro Hnil.
      assert (Hl : List.length (skipn (Z.to_nat (window L - 1)) (signal L))
                   = 0) by (rewrite Hnil; reflexivity).
      rewrite length_skipn in Hl. lia.
    + intro Hlt. apply skipn_all2. lia.
  - apply Z.leb_gt in E. split.
    + intro Hnil.
      assert (Hl : List.length
                     (skipn (List.length (signal L)
                             - Z.to_nat (- (window L - 1))) (signal L))
                   = 0) by (rewrite Hnil; reflexivity).
      rewrite length_skipn in Hl. lia.
    + lia.
Qed.

(** X11.  In a completed run on a well-formed frame, the success report
    carries NaN as its value exactly when the window exceeds the number of
    rows; otherwise the value is a number. *)
Theorem value_is_nan_iff_window_exceeds_rows (W : World) (L : Locals) :
  completes W L ->
  Pandas.well_formed (df L) = true ->
  report_value (metrics L) = Some NaN
  <-> (Z.of_nat (Pandas.df_len (df L)) < window L)%Z.
Proof.
  intros Hrun Hwf.
  rewrite <- (valid_signals_empty_iff W L Hrun Hwf).
  destruct (completes_inv W L Hrun)
    as (cfg & df0 & _ & _ & _ & _ & _ & _ & _ & Hsig & Hval & _
        & (version & seed & Hmet) & _).
  rewrite Hmet. cbn [report_value]. split.
  - intro Hnan. destruct (valid_signals L) as [|z t] eqn:Hv; [reflexivity|].
    assert (Hbits : Forall is_bit (z :: t)).
    { rewrite Hval. apply slice_from_bits. rewrite Hsig.
      apply gt_astype_int_bits. }
    destruct (mean_int_bits _ Hbits ltac:(discriminate))
      as (m & Hm & Hm0 & Hm1).
    destruct (py_round4_unit_interval m Hm0 Hm1) as (r & Hr & _).
    rewrite Hm, Hr in Hnan. discriminate Hnan.
  - intros ->. reflexivity.
Qed.

Lemma value_is_nan_iff_window_exceeds_rows_witness :
  report_value (metrics (Demo.locals_of Demo.world_short)) = Some NaN
  <-> (Z.of_nat (Pandas.df_len (df (Demo.locals_of Demo.world_short)))
       < window (Demo.locals_of Demo.world_short))%Z.
Proof.
  apply (value_is_nan_iff_window_exceeds_rows Demo.world_short
           (Demo.locals_of Demo.world_short)).
  - eexists. vm_compute. reflexivity.
  - reflexivity.
Defined.

(* ===================================================================== *)
(** ** Missing close values *)
(* ===================================================================== *)





(* ===================================================================== *)
(** ** The frame after the run *)
(* ===================================================================== *)

(** X13.  A completed run keeps the parsed frame as it was, apart from the
    two columns it writes: the number of rows is unchanged, every column
    other than [rolling_mean] and [signal] is as parsed, and the [signal]
    column has one 0/1 value per close value. *)
Theorem run_keeps_the_parsed_columns (W : World) (L : Locals) :
  completes W L ->
  exists raw_f d,
    input_file W = Some (inr raw_f)
    /\ read_csv W (cleaned raw_f) = inr d
    /\ Pandas.df_len (df L) = Pandas.df_len d
    /\ (forall name,
          name <> "rolling_mean" -> name <> "signal" ->
          Pandas.column name (Pandas.df_columns (df L))
          = Pandas.column name (Pandas.df_columns d))
    /\ Pandas.column "signal" (Pandas.df_columns (df L))
       = Some (Pandas.Int64 (signal L))
    /\ List.length (signal L) = List.length (close L)
    /\ Forall is_bit (signal L).
Proof.
  intro Hrun.
  destruct (completes_config W L Hrun)
    as (entries & version & seed & raw_f & d & close_s & _ & _ & _ & _ & _
        & Hin & Hcsv & _ & _ & _ & _ & _ & _ & _ & Hdf).
  destruct (completes_inv W L Hrun)
    as (cfg & df0 & _ & _ & _ & _ & _ & _ & Hrm & Hsig & _).
  exists raw_f, d.
  split; [exact Hin|]. split; [exact Hcsv|].
  split; [rewrite Hdf; reflexivity|]. split.
  { intros name H1 H2. rewrite Hdf. cbn [Pandas.assign Pandas.df_columns].
    rewrite !column_set_other by assumption. reflexivity. }
  split; [rewrite Hdf; apply column_set_same|]. split.
  - rewrite Hsig. apply length_gt_astype_int.
    rewrite Hrm, length_rolling_mean. reflexivity.
  - rewrite Hsig. apply gt_astype_int_bits.
Qed.

Lemma run_keeps_the_parsed_columns_witness :
  exists raw_f d,
    input_file Edge.world_gap = Some (inr raw_f)
    /\ read_csv Edge.world_gap (cleaned raw_f) = inr d
    /\ Pandas.df_len (df (Demo.locals_of Edge.world_gap)) = Pandas.df_len d
    /\ (forall name,
          name <> "rolling_mean" -> name <> "signal" ->
          Pandas.column name
            (Pandas.df_columns (df (Demo.locals_of Edge.world_gap)))
          = Pandas.column name (Pandas.df_columns d))
    /\ Pandas.column "signal"
         (Pandas.df_columns (df (Demo.locals_of Edge.world_gap)))
       = Some (Pandas.Int64 (signal (Demo.locals_of Edge.world_gap)))
    /\ List.length (signal (Demo.locals_of Edge.world_gap))
       = List.length (close (Demo.locals_of Edge.world_gap))
    /\ Forall is_bit (signal (Demo.locals_of Edge.world_gap)).
Proof.
  apply (run_keeps_the_parsed_columns Edge.world_gap
           (Demo.locals_of Edge.world_gap)).
  eexists. vm_compute. reflexivity.
Defined.

(* ===================================================================== *)
(** ** Repairing a whole file *)
(* ===================================================================== *)

Lemma last_char_snoc (s : string) (c : ascii) :
  PyStr.last_char (s ++ String c EmptyString) = Some c.
Proof.
  induction s as [|d s IH]; [reflexivity|].
  cbn [String.append PyStr.last_char].
  destruct (s ++ String c EmptyString) eqn:E; [|exact IH].
  destruct s; discriminate E.
Qed.

Lemma clean_ends_inv (s : string) :
  clean_ends s = true ->
  PyStr.holds_at PyStr.is_space (PyStr.first_char s) = false
  /\ PyStr.holds_at PyStr.is_space (PyStr.last_char s) = false
  /\ PyStr.holds_at PyStr.is_dquote (PyStr.first_char s) = false
  /\ PyStr.holds_at PyStr.is_dquote (PyStr.last_char s) = false.
Proof.
  unfold clean_ends. intro H.
  apply andb_prop in H. destruct H as [H H4].
  apply andb_prop in H. destruct H as [H H3].
  apply andb_prop in H. destruct H as [H1 H2].
  repeat split; apply negb_true_iff; assumption.
Qed.

(** A line with clean ends comes out of the repair as it is, without its
    line end. *)
Lemma repair_line_clean (c : string) :
  clean_ends c = true -> repair_line (c ++ PyStr.newline) = c.
Proof.
  intro H. destruct (clean_ends_inv c H) as (S1 & S2 & Q1 & Q2).
  rewrite repair_line_unfold.
  assert (Hs : PyStr.strip (c ++ PyStr.newline) = c).
  { unfold PyStr.strip.
    change (c ++ PyStr.newline) with (EmptyString ++ c ++ PyStr.newline).
    apply strip_by_unique; auto. }
  rewrite Hs.
  rewrite <- (append_nil_r c) at 1.
  change (c ++ EmptyString) with (EmptyString ++ c ++ EmptyString).
  apply strip_by_unique; auto.
Qed.

(** The producer's wrapping is undone: a line with clean ends, wrapped in
    one pair of double quotes, comes out as it was before the wrapping. *)
Lemma repair_line_wrapped (c : string) :
  clean_ends c = true -> repair_line (PyStr.quoted c ++ PyStr.newline) = c.
Proof.
  intro H. destruct (clean_ends_inv c H) as (S1 & S2 & Q1 & Q2).
  rewrite repair_line_unfold.
  assert (Hs : PyStr.strip (PyStr.quoted c ++ PyStr.newline)
               = PyStr.quoted c).
  { unfold PyStr.strip.
    change (PyStr.quoted c ++ PyStr.newline)
      with (EmptyString ++ PyStr.quoted c ++ PyStr.newline).
    apply strip_by_unique; try reflexivity.
    change (PyStr.quoted c)
      with (String PyStr.dquote c ++ String PyStr.dquote EmptyString).
    rewrite last_char_snoc. reflexivity. }
  rewrite Hs. unfold PyStr.quoted.
  change (String PyStr.dquote (c ++ String PyStr.dquote EmptyString))
    with (String PyStr.dquote EmptyString
          ++ c ++ String PyStr.dquote EmptyString).
  apply strip_by_unique; auto.
Qed.

Lemma cleaned_wrapped_file (contents : list string) :
  Forall (fun c => clean_ends c = true) contents ->
  cleaned (Edge.file_of contents) = Edge.text_of contents.
Proof.
  unfold cleaned, Edge.file_of, Edge.text_of.
  induction 1 as [|c rest Hc _ IH]; [reflexivity|].
  cbn [map PyStr.join fold_right]. rewrite (repair_line_wrapped c Hc).
  f_equal. exact IH.
Qed.

Lemma cleaned_plain_file (contents : list string) :
  Forall (fun c => clean_ends c = true) contents ->
  cleaned (map (fun c => c ++ PyStr.newline) contents)
  = Edge.text_of contents.
Proof.
  unfold cleaned, Edge.text_of.
  induction 1 as [|c rest Hc _ IH]; [reflexivity|].
  cbn [map PyStr.join fold_right]. rewrite (repair_line_clean c Hc).
  f_equal. exact IH.
Qed.

(** X14.  The repair undoes the producer's wrapping and nothing more: for a
    file whose lines have content with clean ends (no whitespace and no
    double quote at either end), the repaired text of the wrapped file is
    the unwrapped text, line for line; the repaired text of the file that
    was never wrapped is that same text; and the unwrapped text is what the
    parser is given. *)
Theorem repair_undoes_the_wrapping (contents : list string) :
  Forall (fun c => clean_ends c = true) contents ->
  cleaned (Edge.file_of contents) = Edge.text_of contents
  /\ cleaned (map (fun c => c ++ PyStr.newline) contents)
     = Edge.text_of contents
  /\ (forall W,
        input_file W = Some (inr (Edge.file_of contents)) ->
        load_dataset W
        = bind (call (read_csv W (Edge.text_of contents))) validate_dataset).
Proof.
  intro Hclean.
  split; [exact (cleaned_wrapped_file contents Hclean)|].
  split; [exact (cleaned_plain_file contents Hclean)|].
  intros W HW. unfold load_dataset.
  rewrite HW, <- (cleaned_wrapped_file contents Hclean). reflexivity.
Qed.

Lemma repair_undoes_the_wrapping_witness :
  cleaned (Edge.file_of Edge.gap_rows) = Edge.text_of Edge.gap_rows.
Proof.
  apply (repair_undoes_the_wrapping Edge.gap_rows).
  repeat constructor.
Defined.

(* ===================================================================== *)
(** ** The seed *)
(* ===================================================================== *)

(** X15.  The seed is handed to [np.random.seed] as soon as the three keys
    are found, whatever the window is: when it is refused, the run ends in
    one error report with the config's version and the message of the
    refusal, and exit code 1. *)
Theorem refused_seed_is_reported
    (W : World) (entries : list (string * yaml)) (seed window_v : yaml)
    (e : exn) :
  config_file W = Some (inr (YMap entries)) ->
  dict_lookup "seed" entries = Some seed ->
  dict_lookup "window" entries = Some window_v ->
  dict_has "version" entries = true ->
  json_ok (recovered_version entries) = true ->
  np_random_seed W seed = inl e ->
  main W = error_outcome (recovered_version entries) (exn_msg e).
Proof.
  intros Hfile Hs Hw Hv Hj Hnp.
  apply reported_failure; [|exact Hj].
  apply main_try_config_failure.
  rewrite (load_config_loaded W _ _ Hfile).
  rewrite (validate_keys_mapping entries) by reflexivity.
  assert (Hnone : first_missing entries = None).
  { unfold first_missing, required_keys. cbn [find].
    unfold dict_has at 1 2. rewrite Hs, Hw, Hv. reflexivity. }
  rewrite Hnone. cbn [fr_config py_getitem]. rewrite Hs, Hnp. reflexivity.
Qed.

Lemma refused_seed_is_reported_witness :
  main Edge.world_bad_seed
  = error_outcome (YStr "v1") "Seed must be between 0 and 2**32 - 1".
Proof.
  apply (refused_seed_is_reported Edge.world_bad_seed
           [("seed", YInt (-1)); ("window", YInt 2); ("version", YStr "v1")]
           (YInt (-1)) (YInt 2)
           (ValueError "Seed must be between 0 and 2**32 - 1")).
  - reflexivity.
  - reflexivity.
  - reflexivity.
  - reflexivity.
  - reflexivity.
  - reflexivity.
Defined.
